(** * Geodesy kernel of donhautea/coordinates

    Shallow embedding of the spherical-earth helpers that the Streamlit
    apps of the repository share:
    - [haversine_distance] and [initial_bearing] (src/geolocation.py),
    - [calculate_distance] and [calculate_bearing] (src/coord.py),
    - [haversine] (src/multi_user_map.py),
    - [rotate_bearing] and [line_intersection] (src/triangulate_app.py),
    and the script code around them: the origin/destination results of
    src/geolocation.py, the intersections, centres and bearing lines of
    src/triangulate_app.py, the sheet logging of the three logging apps,
    the visibility rules of src/multi_user_map.py and the latest row per
    email of src/multi_geolocation.py.

    Python floats are modelled by exact real numbers ([R]), where
    rounding is not modelled; the distance and destination helpers are
    also modelled in IEEE double arithmetic (Rocq's primitive floats, with
    the C library's [sin], [cos], [asin], [atan2] and [pow] as a
    parameter), where rounding makes them raise on some valid inputs that
    the real model accepts.  The partial functions of Python's [math] module
    ([sqrt], [asin], [acos]) and float division raise exceptions outside
    their domain, so the embedding threads a small error monad
    ([Result]) through the code that calls them. *)

From Stdlib Require Import Floats.
From Stdlib Require Import Reals Lra Lia ZArith.
Open Scope R_scope.

(** ** Python runtime: errors and the [math] module *)

Inductive PyError : Type :=
| ValueError          (* math domain error *)
| ZeroDivisionError   (* float division by zero *)
| OverflowError.      (* float [**] with an infinite result *)

Inductive Result (A : Type) : Type :=
| Ok (v : A)
| Err (e : PyError).
Arguments Ok {A} v.
Arguments Err {A} e.

Definition bind {A B : Type} (m : Result A) (f : A -> Result B) : Result B :=
  match m with
  | Ok v => f v
  | Err e => Err e
  end.

Notation "'let*' x ':=' m 'in' f" := (bind m (fun x => f))
  (at level 200, x name, m at level 100, f at level 200).

(** Boolean comparisons on floats, as Python's [==] and [<]. *)
Definition Reqb (x y : R) : bool := if Req_EM_T x y then true else false.
Definition Rltb (x y : R) : bool := if Rlt_dec x y then true else false.

(** [math.sqrt]: ValueError on a negative argument. *)
Definition py_sqrt (x : R) : Result R :=
  if Rltb x 0 then Err ValueError else Ok (sqrt x).

(** [math.asin] and [math.acos]: ValueError outside [-1, 1]. *)
Definition py_asin (x : R) : Result R :=
  if Rltb x (-1) then Err ValueError
  else if Rltb 1 x then Err ValueError
  else Ok (asin x).

Definition py_acos (x : R) : Result R :=
  if Rltb x (-1) then Err ValueError
  else if Rltb 1 x then Err ValueError
  else Ok (acos x).

(** Float division [x / y]: ZeroDivisionError when [y == 0]. *)
Definition py_div (x y : R) : Result R :=
  if Reqb y 0 then Err ZeroDivisionError else Ok (x / y).

(** [math.atan2(y, x)], with the C library's quadrant conventions
    (signed zeros are not distinguished, so [atan2(0, 0) = 0]). *)
Definition atan2 (y x : R) : R :=
  if Rltb 0 x then atan (y / x)
  else if Rltb x 0 then
    (if Rltb y 0 then atan (y / x) - PI else atan (y / x) + PI)
  else if Rltb 0 y then PI / 2
  else if Rltb y 0 then - (PI / 2)
  else 0.

(** [math.floor], through the Standard Library's [up]
    ([x < up x <= x + 1]). *)
Definition Rfloor (x : R) : R := IZR (up x) - 1.

(** Python's float [x % y] for a divisor [y <> 0] (every call site below
    uses a nonzero constant divisor): [x - y * floor(x / y)]. *)
Definition py_mod (x y : R) : R := x - y * Rfloor (x / y).

(** [math.radians] and [math.degrees]. *)
Definition radians (x : R) : R := x * PI / 180.
Definition degrees (x : R) : R := x * 180 / PI.

(** The mean earth radius [R = 6371.0] used by every helper. *)
Definition EarthRadius : R := 6371.

(** ** src/geolocation.py *)

(** The haversine intermediate term
    [a = sin(Δφ/2)**2 + cos(φ1)*cos(φ2)*sin(Δλ/2)**2]. *)
Definition hav_a (lat1 lon1 lat2 lon2 : R) : R :=
  let phi1 := radians lat1 in
  let phi2 := radians lat2 in
  let dphi := radians (lat2 - lat1) in
  let dlambda := radians (lon2 - lon1) in
  sin (dphi / 2) ^ 2 + cos phi1 * cos phi2 * sin (dlambda / 2) ^ 2.

(** The rest of the haversine body, from [a]:
    [c = 2 * atan2(sqrt(a), sqrt(1 - a))]; [return R * c].
    No clamping of [a] happens before the square roots. *)
Definition haversine_tail (a : R) : Result R :=
  let* sa := py_sqrt a in
  let* sb := py_sqrt (1 - a) in
  let c := 2 * atan2 sa sb in
  Ok (EarthRadius * c).

Definition haversine_distance (lat1 lon1 lat2 lon2 : R) : Result R :=
  haversine_tail (hav_a lat1 lon1 lat2 lon2).

Definition initial_bearing (lat1 lon1 lat2 lon2 : R) : R :=
  let phi1 := radians lat1 in
  let phi2 := radians lat2 in
  let dlambda := radians (lon2 - lon1) in
  let x := sin dlambda * cos phi2 in
  let y := cos phi1 * sin phi2 - sin phi1 * cos phi2 * cos dlambda in
  let theta := degrees (atan2 x y) in
  py_mod (theta + 360) 360.

(** ** src/coord.py *)

Definition calculate_bearing (lat1 lon1 lat2 lon2 : R) : R :=
  let phi1 := radians lat1 in
  let phi2 := radians lat2 in
  let d_lambda := radians (lon2 - lon1) in
  let x := sin d_lambda * cos phi2 in
  let y := cos phi1 * sin phi2 - sin phi1 * cos phi2 * cos d_lambda in
  py_mod (degrees (atan2 x y) + 360) 360.

Definition calculate_distance (lat1 lon1 lat2 lon2 : R) : Result R :=
  let phi1 := radians lat1 in
  let phi2 := radians lat2 in
  let dphi := radians (lat2 - lat1) in
  let dlambda := radians (lon2 - lon1) in
  let a := sin (dphi / 2) ^ 2 + cos phi1 * cos phi2 * sin (dlambda / 2) ^ 2 in
  let* sa := py_sqrt a in
  let* sb := py_sqrt (1 - a) in
  let c := 2 * atan2 sa sb in
  Ok (EarthRadius * c).

(** ** src/multi_user_map.py *)

Definition haversine (lat1 lon1 lat2 lon2 : R) : Result R :=
  let phi1 := radians lat1 in
  let phi2 := radians lat2 in
  let dphi := radians (lat2 - lat1) in
  let dlambda := radians (lon2 - lon1) in
  let a := sin (dphi / 2) ^ 2 + cos phi1 * cos phi2 * sin (dlambda / 2) ^ 2 in
  let* sa := py_sqrt a in
  let* sb := py_sqrt (1 - a) in
  Ok (EarthRadius * (2 * atan2 sa sb)).

(** ** src/triangulate_app.py *)

(** [rotate_bearing(lat, lon, bearing_deg, distance_km=1000)]: the
    destination point; the result is [(degrees(lat2), degrees(lon2))]. *)
Definition rotate_bearing (lat lon bearing_deg distance_km : R)
  : Result (R * R) :=
  let br := radians bearing_deg in
  let lat1 := radians lat in
  let lon1 := radians lon in
  let delta := distance_km / EarthRadius in
  let* lat2 := py_asin (sin lat1 * cos delta
                        + cos lat1 * sin delta * cos br) in
  let lon2 := lon1 + atan2 (sin br * sin delta * cos lat1)
                           (cos delta - sin lat1 * sin lat2) in
  Ok (degrees lat2, degrees lon2).

(** [line_intersection(p1, b1, p2, b2)]: [Ok None] is the Python
    [return None] (no intersection), [Ok (Some p)] a returned point. *)
Definition line_intersection (p1 : R * R) (b1 : R) (p2 : R * R) (b2 : R)
  : Result (option (R * R)) :=
  let phi1 := radians (fst p1) in
  let lam1 := radians (snd p1) in
  let phi2 := radians (fst p2) in
  let lam2 := radians (snd p2) in
  let th13 := radians b1 in
  let th23 := radians b2 in
  let dphi := phi2 - phi1 in
  let dlam := lam2 - lam1 in
  let* s := py_sqrt (sin (dphi / 2) ^ 2
                     + cos phi1 * cos phi2 * sin (dlam / 2) ^ 2) in
  let* h := py_asin s in
  let d12 := 2 * h in
  if Reqb d12 0 then Ok None else
  let* qa := py_div (sin phi2 - sin phi1 * cos d12) (sin d12 * cos phi1) in
  let* tha := py_acos qa in
  let* qb := py_div (sin phi1 - sin phi2 * cos d12) (sin d12 * cos phi2) in
  let* thb := py_acos qb in
  let '(th12, th21) :=
    if Rltb 0 (sin (lam2 - lam1)) then (tha, 2 * PI - thb)
    else (2 * PI - tha, thb) in
  let a1 := py_mod (th13 - th12 + PI) (2 * PI) - PI in
  let a2 := py_mod (th21 - th23 + PI) (2 * PI) - PI in
  if (Reqb (sin a1) 0 && Reqb (sin a2) 0)%bool then Ok None else
  if Rltb (sin a1 * sin a2) 0 then Ok None else
  let* a3 := py_acos (- cos a1 * cos a2 + sin a1 * sin a2 * cos d12) in
  let d13 := atan2 (sin d12 * sin a1 * sin a2) (cos a2 + cos a1 * cos a3) in
  let* phi3 := py_asin (sin phi1 * cos d13
                        + cos phi1 * sin d13 * cos th13) in
  let lam3 := lam1 + atan2 (sin th13 * sin d13 * cos phi1)
                           (cos d13 - sin phi1 * sin phi3) in
  Ok (Some (degrees phi3, degrees lam3)).

(** * The scripts around the helpers *)

From Stdlib Require Import List String Sorting.Sorted Sorting.Permutation.
Import ListNotations.

(** Python's [round(x, n)] on an exact value: [x * 10^n] rounded to the
    nearest integer, ties to even, scaled back. *)
Definition round_half_even (y : R) : R :=
  let f := Rfloor y in
  if Rltb (y - f) (1 / 2) then f
  else if Rltb (1 / 2) (y - f) then f + 1
  else if Z.even (up y - 1) then f else f + 1.

Definition py_round (x : R) (n : nat) : R := round_half_even (x * 10 ^ n) / 10 ^ n.

(** ** src/geolocation.py: the main script *)

Definition ORIGIN_LAT : R := 14.64171.
Definition ORIGIN_LON : R := 121.05078.

(** Truthiness of [location_data.get(...)]: [None] and [0.0] are false. *)
Definition py_truthy_float (v : option R) : bool :=
  match v with Some x => negb (Reqb x 0) | None => false end.

Definition opt_get (v : option R) (d : R) : R :=
  match v with Some x => x | None => d end.

(** Lines 100-116: the destination is the GPS fix when
    [dest_lat and dest_lon] is true, the origin otherwise. *)
Definition destination (dest_lat dest_lon : option R) : R * R :=
  if (py_truthy_float dest_lat && py_truthy_float dest_lon)%bool
  then (opt_get dest_lat ORIGIN_LAT, opt_get dest_lon ORIGIN_LON)
  else (ORIGIN_LAT, ORIGIN_LON).

Record Route := mkRoute {
  o_lat : R; o_lon : R; d_lat : R; d_lon : R;
  distance_km : R; bearing_od : R; bearing_do : R }.

(** Lines 119-124: the distance and the two bearings of the results. *)
Definition compute_route (dest_lat dest_lon : option R) : Result Route :=
  let '(dl, dn) := destination dest_lat dest_lon in
  let* dist := haversine_distance ORIGIN_LAT ORIGIN_LON dl dn in
  Ok (mkRoute ORIGIN_LAT ORIGIN_LON dl dn dist
              (initial_bearing ORIGIN_LAT ORIGIN_LON dl dn)
              (initial_bearing dl dn ORIGIN_LAT ORIGIN_LON)).

(** The results when the destination falls back to the origin. *)
Definition origin_route : Route :=
  mkRoute ORIGIN_LAT ORIGIN_LON ORIGIN_LAT ORIGIN_LON 0 0 0.

(** Line 223: the log is skipped when both coordinates agree once
    rounded to 6 decimals. *)
Definition log_skipped (r : Route) : bool :=
  (Reqb (py_round (o_lat r) 6) (py_round (d_lat r) 6)
   && Reqb (py_round (o_lon r) 6) (py_round (d_lon r) 6))%bool.

(** ** src/triangulate_app.py: the script

    The station coordinates and the bearing sliders are the dicts
    [coords] and [bearings]; the script only looks them up at the keys
    "A", "B" and "C", so they are functions of the key here. *)

Definition pairs : list (string * string * string) :=
  [("AB", "A", "B"); ("BC", "B", "C"); ("CA", "C", "A")]%string.

(** Lines 83-88: [i_pts], in insertion order; [if pt:] holds for every
    returned tuple. *)
Fixpoint collect_intersections (coord : string -> R * R) (bearing : string -> R)
    (ps : list (string * string * string)) : Result (list (string * (R * R))) :=
  match ps with
  | [] => Ok []
  | (tag, p, q) :: rest =>
      let* pt := line_intersection (coord p) (bearing p) (coord q) (bearing q) in
      let* others := collect_intersections coord bearing rest in
      Ok (match pt with Some x => (tag, x) :: others | None => others end)
  end.

Definition i_pts (coord : string -> R * R) (bearing : string -> R) :=
  collect_intersections coord bearing pairs.

Definition stations : list string := ["A"; "B"; "C"]%string.

(** Line 89: [proj_pts], each station projected 1000 km along its bearing. *)
Fixpoint project_all (coord : string -> R * R) (bearing : string -> R)
    (ks : list string) : Result (list (string * (R * R))) :=
  match ks with
  | [] => Ok []
  | k :: rest =>
      let* p := rotate_bearing (fst (coord k)) (snd (coord k)) (bearing k) 1000 in
      let* others := project_all coord bearing rest in
      Ok ((k, p) :: others)
  end.

Definition proj_pts (coord : string -> R * R) (bearing : string -> R) :=
  project_all coord bearing stations.

(** Python's [sum] of the latitudes and of the longitudes. *)
Definition sum_first (pts : list (R * R)) : R := fold_left (fun acc p => acc + fst p) pts 0.
Definition sum_second (pts : list (R * R)) : R := fold_left (fun acc p => acc + snd p) pts 0.

(** Line 90: [proj_center], a fixed division by 3. *)
Definition proj_center (pp : list (string * (R * R))) : R * R :=
  (sum_first (map snd pp) / 3, sum_second (map snd pp) / 3).

(** [d[k]] on a dict with distinct keys; [None] is a KeyError. *)
Fixpoint assoc_get {A : Type} (k : string) (l : list (string * A)) : option A :=
  match l with
  | [] => None
  | (k', v) :: rest => if String.eqb k k' then Some v else assoc_get k rest
  end.

(** Line 123: [[i_pts[k] for k in sel]]. *)
Fixpoint select_points (ips : list (string * (R * R))) (sel : list string)
    : option (list (R * R)) :=
  match sel with
  | [] => Some []
  | k :: rest =>
      match assoc_get k ips, select_points ips rest with
      | Some p, Some ps => Some (p :: ps)
      | _, _ => None
      end
  end.

(** Line 120: [int_center] over the selected points. *)
Definition int_center (pts : list (R * R)) : Result (R * R) :=
  let n := INR (List.length pts) in
  let* a := py_div (sum_first pts) n in
  let* b := py_div (sum_second pts) n in
  Ok (a, b).

(** Python's [k in t] on strings: [k] occurs in [t]. *)
Definition py_in (k t : string) : bool :=
  match String.index 0 k t with Some _ => true | None => false end.

Definition sq_dist (c x : R * R) : R := (fst x - fst c) ^ 2 + (snd x - snd c) ^ 2.

(** Python's [min(xs, key=key)]: the first element of least key. *)
Definition py_min_by {A : Type} (key : A -> R) (x : A) (xs : list A) : A :=
  fold_left (fun m y => if Rltb (key y) (key m) then y else m) xs x.

(** Lines 100-106: the end point of the bearing line of station [k]. *)
Definition line_end (coord : string -> R * R) (bearing : string -> R)
    (ips : list (string * (R * R))) (proj_k : R * R) (k : string) : R * R :=
  if (String.eqb k "C" && Reqb (bearing k) 0)%bool then proj_k
  else match map snd (filter (fun e => py_in k (fst e)) ips) with
       | [] => proj_k
       | e :: es => py_min_by (sq_dist (coord k)) e es
       end.

(** ** Logging to a Google sheet

    [append_to_sheet] (src/multi_geolocation.py, src/multi_user_map.py)
    and [append_to_gdrive] (src/geolocation.py) share one body: the row is
    [[record.get(h, "") for h in headers]] for the header row of the
    sheet, appended when [any(row)]. *)

(** The values a record holds: text, a float, or [None]. *)
Inductive PyVal : Type :=
| PStr (s : string)
| PNum (x : R)
| PNone.

Definition py_truthy (v : PyVal) : bool :=
  match v with
  | PStr s => negb (String.eqb s "")
  | PNum x => negb (Reqb x 0)
  | PNone => false
  end.

Definition dict_get_or_empty (record : list (string * PyVal)) (h : string) : PyVal :=
  match assoc_get h record with Some v => v | None => PStr "" end.

Definition append_to_sheet (headers : list string) (record : list (string * PyVal))
    (sheet : list (list PyVal)) : list (list PyVal) :=
  let row := map (dict_get_or_empty record) headers in
  if existsb py_truthy row then sheet ++ [row] else sheet.

(** ** src/multi_geolocation.py: the logged record (lines 104-111) *)
Definition geo_record (email timestamp : string) (lat lon : R) (elev addr : PyVal)
    : list (string * PyVal) :=
  [("Email", PStr email); ("Timestamp", PStr timestamp);
   ("Latitude", PNum lat); ("Longitude", PNum lon);
   ("Elevation", elev); ("Address", addr)]%string.

(** ** src/multi_user_map.py: the logged record (lines 150-159) *)
Definition user_record (timestamp email : string) (lat lon : R) (elev : PyVal)
    (mode shared_code : string) (sos : bool) : list (string * PyVal) :=
  [("Timestamp", PStr timestamp); ("Email", PStr email);
   ("Latitude", PNum lat); ("Longitude", PNum lon); ("Elevation", elev);
   ("Mode", PStr (if sos then "Public" else mode));
   ("SharedCode", PStr (if String.eqb mode "Private" then shared_code else ""));
   ("SOS", PStr (if sos then "YES" else ""))]%string.

(** A row of [fetch_latest_locations()] as the map reads it: the text
    columns of the sheet and the [Active] flag.  [get_all_records] turns a
    cell that looks like a number into an int or a float; the values
    "Public", "Private", "YES" and "" of the Mode and SOS columns come
    back as written, which is what [read_row] assumes.  A numeric shared
    code would not (it reads back as a number), so nothing below depends
    on [mr_shared_code] being read back. *)
Record MapRow := mkMapRow {
  mr_email : string; mr_mode : string; mr_shared_code : string;
  mr_sos : string; mr_active : bool }.

Definition str_field (record : list (string * PyVal)) (h : string) : string :=
  match assoc_get h record with Some (PStr s) => s | _ => "" end.

Definition read_row (record : list (string * PyVal)) (active : bool) : MapRow :=
  mkMapRow (str_field record "Email") (str_field record "Mode")
           (str_field record "SharedCode") (str_field record "SOS") active.

(** Lines 117-122: the filter choosing the rows whose emails are offered
    as origin users in Private mode. *)
Definition is_origin_candidate (shared_code : string) (r : MapRow) : bool :=
  (mr_active r
   && (String.eqb (mr_mode r) "Private" || String.eqb (mr_mode r) "SOS")
   && String.eqb (mr_shared_code r) shared_code)%bool.

(** Lines 213-218: the rows drawn on the map. *)
Definition map_rows (mode shared_code : string) (show_public : bool)
    (rows : list MapRow) : list MapRow :=
  if String.eqb mode "Private" then
    filter (fun r => (String.eqb (mr_mode r) "Public" && show_public)
                     || String.eqb (mr_shared_code r) shared_code)%bool rows
  else if String.eqb mode "Public" then
    filter (fun r => String.eqb (mr_mode r) "Public") rows
  else rows.

(** Lines 222-227: the fill colour; [blink] is [random.choice([True, False])]. *)
Definition row_color (blink : bool) (r : MapRow) : list Z :=
  if String.eqb (mr_sos r) "YES" then [255; 0; 0; if blink then 255 else 50]%Z
  else if negb (mr_active r) then [100; 100; 100; 100]%Z
  else if String.eqb (mr_mode r) "Public" then [255; 255; 0; 200]%Z
  else [0; 255; 0; 200]%Z.

(** ** src/multi_geolocation.py: [fetch_latest_locations] (lines 84-86)

    A row of the log with its parsed [Timestamp]: [None] is [NaT], what
    [pd.to_datetime(..., errors="coerce")] gives for unparsable text. *)
Record GeoRow := mkGeoRow {
  gr_email : string; gr_ts : option Z; gr_lat : R; gr_lon : R }.

(** The order of [sort_values("Timestamp")]: ascending, [NaT] last. *)
Definition ts_le (a b : option Z) : bool :=
  match a, b with
  | _, None => true
  | None, Some _ => false
  | Some x, Some y => Z.leb x y
  end.

(** The row order of the sorted frame. *)
Definition ts_rel (a b : GeoRow) : Prop := ts_le (gr_ts a) (gr_ts b) = true.

(** [groupby("Email").tail(1)]: the last row of each email, in the order
    of the frame. *)
Fixpoint groupby_tail1 (l : list GeoRow) : list GeoRow :=
  match l with
  | [] => []
  | r :: rest =>
      if existsb (fun r' => String.eqb (gr_email r') (gr_email r)) rest
      then groupby_tail1 rest
      else r :: groupby_tail1 rest
  end.

(** * The distance and destination helpers in IEEE double arithmetic

    The model above computes with exact real numbers.  Python floats are
    IEEE 754 binary64 numbers: [+], [-], [*], [/] and [math.sqrt] round to
    nearest, exactly as Rocq's primitive floats ([PrimFloat]) do.  The
    other functions that [math] and [**] call in the C library ([sin],
    [cos], [asin], [atan2], [pow]) are not fixed by IEEE 754, so the C
    library is a parameter [Libm] of this model. *)

Record Libm := mkLibm {
  c_sin : float -> float;
  c_cos : float -> float;
  c_asin : float -> float;
  c_atan2 : float -> float -> float;  (* CPython's [m_atan2] *)
  c_pow : float -> float -> float }.

(** [math.pi], and the constants of [math.radians] and [math.degrees]:
    [degToRad = Py_MATH_PI / 180.0], [radToDeg = 180.0 / Py_MATH_PI]. *)
Definition py_pi : float := 0x1.921fb54442d18p+1%float.
Definition f_radians (x : float) : float := (py_pi / 180 * x)%float.
Definition f_degrees (x : float) : float := (180 / py_pi * x)%float.

(** CPython's [math_1] (used by [math.sin], [math.cos], [math.asin],
    [math.sqrt]): a NaN result from a non-NaN argument, or an infinite
    result from a finite one, is a math domain error. *)
Definition math_1 (f : float -> float) (x : float) : Result float :=
  let r := f x in
  if (PrimFloat.is_nan r && negb (PrimFloat.is_nan x))%bool then Err ValueError
  else if (PrimFloat.is_infinity r && PrimFloat.is_finite x)%bool then Err ValueError
  else Ok r.

(** [x ** y] on floats ([float_pow]) for finite [x] and [y = 2.0]: the C
    library's [pow]; an infinite result raises OverflowError. *)
Definition f_pow (lm : Libm) (x y : float) : Result float :=
  let r := c_pow lm x y in
  if PrimFloat.is_infinity r then Err OverflowError else Ok r.

Section DoubleKernel.

Variable lm : Libm.

Definition f_sin := math_1 (c_sin lm).
Definition f_cos := math_1 (c_cos lm).
Definition f_asin := math_1 (c_asin lm).
Definition f_sqrt := math_1 PrimFloat.sqrt.

(** src/geolocation.py, lines 22-29, up to [a]. *)
Definition hav_a_f (lat1 lon1 lat2 lon2 : float) : Result float :=
  let phi1 := f_radians lat1 in
  let phi2 := f_radians lat2 in
  let dphi := f_radians (lat2 - lat1)%float in
  let dlambda := f_radians (lon2 - lon1)%float in
  let* s1 := f_sin (dphi / 2)%float in
  let* p1 := f_pow lm s1 2 in
  let* c1 := f_cos phi1 in
  let* c2 := f_cos phi2 in
  let* s2 := f_sin (dlambda / 2)%float in
  let* p2 := f_pow lm s2 2 in
  Ok (p1 + c1 * c2 * p2)%float.

Definition haversine_tail_f (a : float) : Result float :=
  let* sa := f_sqrt a in
  let* sb := f_sqrt (1 - a)%float in
  let c := (2 * c_atan2 lm sa sb)%float in
  Ok (6371 * c)%float.

Definition haversine_distance_f (lat1 lon1 lat2 lon2 : float) : Result float :=
  let* a := hav_a_f lat1 lon1 lat2 lon2 in
  haversine_tail_f a.

(** src/coord.py, lines 60-67 ([R = 6371] is an int, [R * c] a float). *)
Definition calculate_distance_f (lat1 lon1 lat2 lon2 : float) : Result float :=
  let phi1 := f_radians lat1 in
  let phi2 := f_radians lat2 in
  let dphi := f_radians (lat2 - lat1)%float in
  let dlambda := f_radians (lon2 - lon1)%float in
  let* s1 := f_sin (dphi / 2)%float in
  let* p1 := f_pow lm s1 2 in
  let* c1 := f_cos phi1 in
  let* c2 := f_cos phi2 in
  let* s2 := f_sin (dlambda / 2)%float in
  let* p2 := f_pow lm s2 2 in
  let a := (p1 + c1 * c2 * p2)%float in
  let* sa := f_sqrt a in
  let* sb := f_sqrt (1 - a)%float in
  let c := (2 * c_atan2 lm sa sb)%float in
  Ok (6371 * c)%float.

(** src/multi_user_map.py, lines 36-42. *)
Definition haversine_f (lat1 lon1 lat2 lon2 : float) : Result float :=
  let phi1 := f_radians lat1 in
  let phi2 := f_radians lat2 in
  let dphi := f_radians (lat2 - lat1)%float in
  let dlambda := f_radians (lon2 - lon1)%float in
  let* s1 := f_sin (dphi / 2)%float in
  let* p1 := f_pow lm s1 2 in
  let* c1 := f_cos phi1 in
  let* c2 := f_cos phi2 in
  let* s2 := f_sin (dlambda / 2)%float in
  let* p2 := f_pow lm s2 2 in
  let a := (p1 + c1 * c2 * p2)%float in
  let* sa := f_sqrt a in
  let* sb := f_sqrt (1 - a)%float in
  Ok (6371 * (2 * c_atan2 lm sa sb))%float.

(** src/triangulate_app.py, lines 14-21, each call in source order. *)
Definition rotate_bearing_f (lat lon bearing_deg distance_km : float)
  : Result (float * float) :=
  let br := f_radians bearing_deg in
  let lat1 := f_radians lat in
  let lon1 := f_radians lon in
  let* s_lat1 := f_sin lat1 in
  let* c_d := f_cos (distance_km / 6371)%float in
  let* c_lat1 := f_cos lat1 in
  let* s_d := f_sin (distance_km / 6371)%float in
  let* c_br := f_cos br in
  let* lat2 := f_asin (s_lat1 * c_d + c_lat1 * s_d * c_br)%float in
  let* s_br := f_sin br in
  let* s_d' := f_sin (distance_km / 6371)%float in
  let* c_lat1' := f_cos lat1 in
  let* c_d' := f_cos (distance_km / 6371)%float in
  let* s_lat1' := f_sin lat1 in
  let* s_lat2 := f_sin lat2 in
  let lon2 := (lon1 + c_atan2 lm (s_br * s_d' * c_lat1') (c_d' - s_lat1' * s_lat2))%float in
  Ok (f_degrees lat2, f_degrees lon2).

End DoubleKernel.

(** ** The C library at the arguments reached below

    The values that glibc's [sin], [cos], [asin], [atan2] and [pow] return
    (through CPython's [math] module and [**], on x86-64) at the
    arguments the computations below reach; the decimal forms are as
    Python prints them.  [asin] of a number above 1 is a NaN, as C99
    Annex F prescribes. *)

Definition sin_table : list (float * float) := [
  (-0x1.1df46a2529d39p-3, -0x1.1d06c968d9e19p-3);  (* -0.13962634015954636 -> -0.13917310096006544 *)
  (0x1.1df46a2529d39p-3, 0x1.1d06c968d9e19p-3);    (* 0.13962634015954636 -> 0.13917310096006544 *)
  (0x1.921fb54442d18p+0, 0x1p+0);                  (* 1.5707963267948966 -> 1.0 *)
  (0x1.921fb54442d18p+1, 0x1.1a62633145c07p-53);   (* 3.141592653589793 -> 1.2246467991473532e-16 *)
  (-0x1.893011f31982ep+0, -0x1.ffb0278bf0567p-1);  (* -1.53588974175501 -> -0.9993908270190958 *)
  (0x1.8da7e39bae24cp+1, 0x1.1de58c9f7f1fdp-5)]%float. (* 3.106686068549868 -> 0.03489949670253976 *)

Definition cos_table : list (float * float) := [
  (0x1.1df46a2529d39p-3, 0x1.fb046a930947ap-1);    (* 0.13962634015954636 -> 0.9902680687415704 *)
  (-0x1.1df46a2529d39p-3, 0x1.fb046a930947ap-1);   (* -0.13962634015954636 -> 0.9902680687415704 *)
  (0x1.921fb54442d18p+1, -0x1p+0);                 (* 3.141592653589793 -> -1.0 *)
  (0x1.921fb54442d18p+0, 0x1.1a62633145c07p-54);   (* 1.5707963267948966 -> 6.123233995736766e-17 *)
  (0x1.8da7e39bae24cp+1, -0x1.ffb0278bf055bp-1);   (* 3.106686068549868 -> -0.9993908270190944 *)
  (-0x1.893011f31982ep+0, 0x1.1de58c9f7dc37p-5);   (* -1.53588974175501 -> 0.03489949670250108 *)
  (0x0p+0, 0x1p+0)]%float.                         (* 0.0 -> 1.0 *)

Definition asin_table : list (float * float) := [
  (0x1.1d06c968d9e19p-3, 0x1.1df46a2529d39p-3);    (* 0.13917310096006544 -> 0.13962634015954636 *)
  (0x1.0000000000001p+0, PrimFloat.nan)]%float.    (* 1.0000000000000002 -> nan *)

Definition atan2_table : list (float * float * float) := [
  (0x1.17a2dcc587db8p-53, -0x1.f6153f1af3dc0p-1, 0x1.921fb54442d18p+1)]%float.
  (* atan2(1.2127286206821952e-16, -0.9806308479691594) -> 3.141592653589793 *)

Definition pow_table : list (float * float * float) := [
  (-0x1.1d06c968d9e19p-3, 0x1p+1, 0x1.3d581ca184804p-6);  (* (-0.13917310096006544) ** 2 -> 0.019369152030840567 *)
  (0x1.1d06c968d9e19p-3, 0x1p+1, 0x1.3d581ca184804p-6);   (* 0.13917310096006544 ** 2 -> 0.019369152030840567 *)
  (0x1p+0, 0x1p+1, 0x1p+0)]%float.                        (* 1.0 ** 2 -> 1.0 *)

Definition agrees1 (f : float -> float) (tbl : list (float * float)) : Prop :=
  fold_right (fun e P => f (fst e) = snd e /\ P) True tbl.

Definition agrees2 (f : float -> float -> float) (tbl : list (float * float * float)) : Prop :=
  fold_right (fun e P => f (fst (fst e)) (snd (fst e)) = snd e /\ P) True tbl.

(** [lm] returns the C library's values at the tabulated arguments. *)
Definition c_library_values (lm : Libm) : Prop :=
  agrees1 (c_sin lm) sin_table /\ agrees1 (c_cos lm) cos_table /\
  agrees1 (c_asin lm) asin_table /\ agrees2 (c_atan2 lm) atan2_table /\
  agrees2 (c_pow lm) pow_table.

(** A library answering from the tables (NaN elsewhere), to evaluate the
    model at the tabulated arguments. *)
Definition lookup1 (tbl : list (float * float)) (x : float) : float :=
  match find (fun e => PrimFloat.eqb (fst e) x) tbl with
  | Some e => snd e
  | None => PrimFloat.nan
  end.

Definition lookup2 (tbl : list (float * float * float)) (x y : float) : float :=
  match find (fun e => (PrimFloat.eqb (fst (fst e)) x && PrimFloat.eqb (snd (fst e)) y)%bool) tbl with
  | Some e => snd e
  | None => PrimFloat.nan
  end.

Definition tabulated_libm : Libm :=
  mkLibm (lookup1 sin_table) (lookup1 cos_table) (lookup1 asin_table)
         (lookup2 atan2_table) (lookup2 pow_table).

(** [math.pi * 6371], half the earth's circumference in km, as a double
    (20015.086796020572). *)
Definition half_circumference : float := 0x1.38bc58e10e572p+14%float.

(** * Facts about the Python runtime model *)

Lemma Rltb_true (x y : R) : x < y -> Rltb x y = true.
Proof. intros H; unfold Rltb; destruct (Rlt_dec x y); [reflexivity | lra]. Qed.

Lemma Rltb_false (x y : R) : y <= x -> Rltb x y = false.
Proof. intros H; unfold Rltb; destruct (Rlt_dec x y); [lra | reflexivity]. Qed.

Lemma Reqb_refl (x : R) : Reqb x x = true.
Proof. unfold Reqb; destruct (Req_EM_T x x); [reflexivity | congruence]. Qed.

Lemma Reqb_false (x y : R) : x <> y -> Reqb x y = false.
Proof. intros H; unfold Reqb; destruct (Req_EM_T x y); [congruence | reflexivity]. Qed.

Lemma py_sqrt_ok (x : R) : 0 <= x -> py_sqrt x = Ok (sqrt x).
Proof. intros H; unfold py_sqrt; rewrite Rltb_false by lra; reflexivity. Qed.

Lemma py_sqrt_neg (x : R) : x < 0 -> py_sqrt x = Err ValueError.
Proof. intros H; unfold py_sqrt; rewrite Rltb_true by lra; reflexivity. Qed.

Lemma py_asin_ok (x : R) : -1 <= x <= 1 -> py_asin x = Ok (asin x).
Proof.
  intros [H1 H2]; unfold py_asin.
  rewrite (Rltb_false x (-1)) by lra; rewrite (Rltb_false 1 x) by lra.
  reflexivity.
Qed.

Lemma py_acos_ok (x : R) : -1 <= x <= 1 -> py_acos x = Ok (acos x).
Proof.
  intros [H1 H2]; unfold py_acos.
  rewrite (Rltb_false x (-1)) by lra; rewrite (Rltb_false 1 x) by lra.
  reflexivity.
Qed.

Lemma py_div_ok (x y : R) : y <> 0 -> py_div x y = Ok (x / y).
Proof. intros H; unfold py_div; rewrite Reqb_false by exact H; reflexivity. Qed.

Lemma atan2_pos_x (y x : R) : 0 < x -> atan2 y x = atan (y / x).
Proof. intros H; unfold atan2; rewrite Rltb_true by exact H; reflexivity. Qed.

Lemma atan2_0_0 : atan2 0 0 = 0.
Proof.
  unfold atan2; rewrite !Rltb_false by lra; reflexivity.
Qed.

Lemma atan2_pos_y_0 (y : R) : 0 < y -> atan2 y 0 = PI / 2.
Proof.
  intros H; unfold atan2.
  rewrite !(Rltb_false 0 0) by lra.
  rewrite Rltb_true by exact H; reflexivity.
Qed.

(** [atan2] lands in [(-π, π]], as C's [atan2] does. *)
Lemma atan2_range (y x : R) : - PI < atan2 y x <= PI.
Proof.
  pose proof PI_RGT_0 as Hpi.
  pose proof (atan_bound (y / x)) as [Hl Hu].
  unfold atan2.
  destruct (Rltb 0 x) eqn:Ex.
  - unfold Rdiv in *; split; lra.
  - destruct (Rltb x 0) eqn:Ex'.
    + unfold Rltb in Ex, Ex'.
      destruct (Rlt_dec 0 x); [discriminate|].
      destruct (Rlt_dec x 0); [|discriminate].
      destruct (Rltb y 0) eqn:Ey.
      * (* y < 0, x < 0: y / x > 0 *)
        unfold Rltb in Ey; destruct (Rlt_dec y 0); [|discriminate].
        assert (0 < y / x).
        { unfold Rdiv. apply Rmult_neg_neg; [lra|]. apply Rinv_neg; lra. }
        assert (0 < atan (y / x)).
        { rewrite <- atan_0. apply atan_increasing; lra. }
        unfold Rdiv in *; split; lra.
      * (* y >= 0, x < 0: y / x <= 0 *)
        unfold Rltb in Ey; destruct (Rlt_dec y 0); [discriminate|].
        assert (y / x <= 0).
        { unfold Rdiv. assert (/ x < 0) by (apply Rinv_neg; lra). nra. }
        assert (atan (y / x) <= 0).
        { rewrite <- atan_0. destruct H as [H|H].
          - left; apply atan_increasing; lra.
          - rewrite H; lra. }
        unfold Rdiv in *; split; lra.
    + destruct (Rltb 0 y); [split; lra|].
      destruct (Rltb y 0); split; lra.
Qed.

(** [math.floor] is the floor. *)
Lemma Rfloor_spec (x : R) : Rfloor x <= x < Rfloor x + 1.
Proof.
  unfold Rfloor; destruct (archimed x) as [H1 H2]; split; lra.
Qed.

(** Python's [x % y] lies in [[0, y)] for a positive divisor. *)
Lemma py_mod_range (x y : R) : 0 < y -> 0 <= py_mod x y < y.
Proof.
  intros Hy; unfold py_mod.
  pose proof (Rfloor_spec (x / y)) as [H1 H2].
  set (f := Rfloor (x / y)) in *.
  assert (Hx : x = (x / y) * y) by (field; lra).
  set (q := x / y) in *.
  split; nra.
Qed.

(** * The three copies of the haversine distance agree *)

Lemma calculate_distance_eq (lat1 lon1 lat2 lon2 : R) :
  calculate_distance lat1 lon1 lat2 lon2 = haversine_distance lat1 lon1 lat2 lon2.
Proof. reflexivity. Qed.

Lemma haversine_eq (lat1 lon1 lat2 lon2 : R) :
  haversine lat1 lon1 lat2 lon2 = haversine_distance lat1 lon1 lat2 lon2.
Proof. reflexivity. Qed.

Lemma calculate_bearing_eq (lat1 lon1 lat2 lon2 : R) :
  calculate_bearing lat1 lon1 lat2 lon2 = initial_bearing lat1 lon1 lat2 lon2.
Proof. reflexivity. Qed.

Lemma hav_a_same (lat lon : R) : hav_a lat lon lat lon = 0.
Proof.
  unfold hav_a; rewrite !Rminus_diag.
  replace (radians 0 / 2) with 0 by (unfold radians; field).
  rewrite sin_0; ring.
Qed.

Lemma hav_a_sym (lat1 lon1 lat2 lon2 : R) :
  hav_a lat1 lon1 lat2 lon2 = hav_a lat2 lon2 lat1 lon1.
Proof.
  unfold hav_a.
  replace (radians (lat1 - lat2) / 2) with (- (radians (lat2 - lat1) / 2))
    by (unfold radians; field).
  replace (radians (lon1 - lon2) / 2) with (- (radians (lon2 - lon1) / 2))
    by (unfold radians; field).
  rewrite !sin_neg; ring.
Qed.

Lemma haversine_distance_self (lat lon : R) :
  haversine_distance lat lon lat lon = Ok 0.
Proof.
  unfold haversine_distance, haversine_tail; rewrite hav_a_same.
  rewrite (py_sqrt_ok 0) by lra; simpl.
  rewrite (py_sqrt_ok (1 - 0)) by lra; simpl.
  rewrite Rminus_0_r, sqrt_0, sqrt_1, atan2_pos_x by lra.
  unfold Rdiv; rewrite Rmult_0_l, atan_0, !Rmult_0_r; reflexivity.
Qed.

(** * Claims about the distance and bearing helpers *)

(** C8: for every point P, the great-circle distance from P to itself is
    exactly 0, in each of the three copies of the haversine helper. *)
Theorem C8_distance_self_zero (lat lon : R) :
  haversine_distance lat lon lat lon = Ok 0 /\
  calculate_distance lat lon lat lon = Ok 0 /\
  haversine lat lon lat lon = Ok 0.
Proof.
  pose proof (haversine_distance_self lat lon) as H.
  split; [exact H | split; [rewrite calculate_distance_eq | rewrite haversine_eq]; exact H].
Qed.

(** C7: the great-circle distance is symmetric, distance(P, Q) =
    distance(Q, P), in each of the three copies (exactly, in the real
    arithmetic model; the error outcomes coincide too). *)
Theorem C7_distance_symmetric (lat1 lon1 lat2 lon2 : R) :
  haversine_distance lat1 lon1 lat2 lon2 = haversine_distance lat2 lon2 lat1 lon1 /\
  calculate_distance lat1 lon1 lat2 lon2 = calculate_distance lat2 lon2 lat1 lon1 /\
  haversine lat1 lon1 lat2 lon2 = haversine lat2 lon2 lat1 lon1.
Proof.
  assert (H : haversine_distance lat1 lon1 lat2 lon2
              = haversine_distance lat2 lon2 lat1 lon1).
  { unfold haversine_distance; rewrite hav_a_sym; reflexivity. }
  split; [exact H | split; [rewrite calculate_distance_eq | rewrite haversine_eq]; exact H].
Qed.

(** C6: the initial bearing (and its copy [calculate_bearing]) is
    [(degrees(atan2(x, y)) + 360) % 360] and lies in [[0, 360)], for every
    pair of points (distinct or not). *)
Theorem C6_bearing_range (lat1 lon1 lat2 lon2 : R) :
  initial_bearing lat1 lon1 lat2 lon2 =
    py_mod (degrees (atan2 (sin (radians (lon2 - lon1)) * cos (radians lat2))
                           (cos (radians lat1) * sin (radians lat2)
                            - sin (radians lat1) * cos (radians lat2)
                              * cos (radians (lon2 - lon1)))) + 360) 360 /\
  0 <= initial_bearing lat1 lon1 lat2 lon2 < 360 /\
  0 <= calculate_bearing lat1 lon1 lat2 lon2 < 360.
Proof.
  assert (H : 0 <= initial_bearing lat1 lon1 lat2 lon2 < 360)
    by (apply py_mod_range; lra).
  split; [reflexivity | split; [exact H | rewrite calculate_bearing_eq; exact H]].
Qed.

(** * Claims about the intersection helper *)

(** C1: for coincident stations (the same start point twice), whatever
    the two bearings, [line_intersection] computes [Δ12 = 0] and returns
    [None] (the code's "no intersection" outcome, the spec's
    DegenerateInputError) instead of a point. *)
Theorem C1_coincident_stations_degenerate (p : R * R) (b1 b2 : R) :
  line_intersection p b1 p b2 = Ok None.
Proof.
  unfold line_intersection; cbv zeta.
  rewrite !Rminus_diag.
  replace (0 / 2) with 0 by field.
  rewrite sin_0.
  replace (0 ^ 2 + cos (radians (fst p)) * cos (radians (fst p)) * 0 ^ 2)
    with 0 by ring.
  rewrite py_sqrt_ok by lra; simpl.
  rewrite sqrt_0, py_asin_ok by lra; simpl.
  rewrite asin_0, Rmult_0_r, Reqb_refl; reflexivity.
Qed.

(** * Spherical trigonometry used by the kernel *)

Lemma sin_half_sq (x : R) : sin (x / 2) ^ 2 = (1 - cos x) / 2.
Proof.
  pose proof (cos_2a_sin (x / 2)) as H.
  replace (2 * (x / 2)) with x in H by field.
  rewrite H; field.
Qed.

Lemma radians_degrees (x : R) : radians (degrees x) = x.
Proof. unfold radians, degrees; pose proof PI_RGT_0; field; lra. Qed.

Lemma radians_minus (x y : R) : radians (x - y) = radians x - radians y.
Proof. unfold radians; field. Qed.

(** A dot product of two unit vectors of the sphere, written in
    latitude/longitude form, lies in [[-1, 1]] (Cauchy-Schwarz). *)
Lemma dot_bound (s1 c1 s2 c2 k : R) :
  s1 ^ 2 + c1 ^ 2 = 1 -> s2 ^ 2 + c2 ^ 2 = 1 -> -1 <= k <= 1 ->
  -1 <= s1 * s2 + c1 * c2 * k <= 1.
Proof.
  intros E1 E2 Hk.
  assert (Hsq : (s1 * s2 + c1 * c2 * k) ^ 2 <= 1).
  { assert (Hk2 : k ^ 2 <= 1) by nra.
    assert (Hcs : (s1 * s2 + c1 * c2 * k) ^ 2
                  = (s1 ^ 2 + c1 ^ 2) * (s2 ^ 2 + c2 ^ 2 * k ^ 2)
                    - (s1 * c2 * k - c1 * s2) ^ 2) by ring.
    rewrite Hcs, E1.
    pose proof (pow2_ge_0 (s1 * c2 * k - c1 * s2)).
    pose proof (pow2_ge_0 c2).
    nra. }
  split; nra.
Qed.

Lemma sin_cos_sq (x : R) : sin x ^ 2 + cos x ^ 2 = 1.
Proof. pose proof (sin2_cos2 x) as H; unfold Rsqr in H; simpl; lra. Qed.

(** The haversine term in closed form:
    [a = (1 - (sin φ1 sin φ2 + cos φ1 cos φ2 cos Δλ)) / 2]. *)
Lemma hav_a_closed (lat1 lon1 lat2 lon2 : R) :
  hav_a lat1 lon1 lat2 lon2 =
  (1 - (sin (radians lat1) * sin (radians lat2)
        + cos (radians lat1) * cos (radians lat2)
          * cos (radians (lon2 - lon1)))) / 2.
Proof.
  unfold hav_a; cbv zeta.
  rewrite !sin_half_sq, (radians_minus lat2 lat1), cos_minus.
  field.
Qed.

(** The haversine term lies in [[0, 1]] for all real inputs. *)
Lemma hav_a_range (lat1 lon1 lat2 lon2 : R) :
  0 <= hav_a lat1 lon1 lat2 lon2 <= 1.
Proof.
  rewrite hav_a_closed.
  pose proof (dot_bound (sin (radians lat1)) (cos (radians lat1))
                        (sin (radians lat2)) (cos (radians lat2))
                        (cos (radians (lon2 - lon1)))
                        (sin_cos_sq _) (sin_cos_sq _) (COS_bound _)).
  split; lra.
Qed.

Lemma haversine_distance_total (lat1 lon1 lat2 lon2 : R) :
  haversine_distance lat1 lon1 lat2 lon2 =
  Ok (EarthRadius * (2 * atan2 (sqrt (hav_a lat1 lon1 lat2 lon2))
                               (sqrt (1 - hav_a lat1 lon1 lat2 lon2)))).
Proof.
  pose proof (hav_a_range lat1 lon1 lat2 lon2) as [H0 H1].
  unfold haversine_distance, haversine_tail.
  rewrite (py_sqrt_ok (hav_a _ _ _ _)) by exact H0; simpl.
  rewrite py_sqrt_ok by lra; reflexivity.
Qed.

(** The [asin] argument of [rotate_bearing] lies in [[-1, 1]]. *)
Lemma rotate_arg_bound (lat1 delta br : R) :
  -1 <= sin lat1 * cos delta + cos lat1 * sin delta * cos br <= 1.
Proof.
  apply dot_bound; [apply sin_cos_sq | | apply COS_bound].
  rewrite Rplus_comm; apply sin_cos_sq.
Qed.

Lemma rotate_bearing_total (lat lon bearing_deg distance_km : R) :
  let br := radians bearing_deg in
  let lat1 := radians lat in
  let delta := distance_km / EarthRadius in
  let lat2 := asin (sin lat1 * cos delta + cos lat1 * sin delta * cos br) in
  rotate_bearing lat lon bearing_deg distance_km =
  Ok (degrees lat2,
      degrees (radians lon + atan2 (sin br * sin delta * cos lat1)
                                   (cos delta - sin lat1 * sin lat2))).
Proof.
  intros br lat1 delta lat2.
  unfold rotate_bearing; fold br lat1 delta.
  rewrite py_asin_ok by apply rotate_arg_bound.
  reflexivity.
Qed.

Lemma bind_Ok {A B : Type} (v : A) (f : A -> Result B) : bind (Ok v) f = f v.
Proof. reflexivity. Qed.

Lemma degrees_le (x y : R) : x <= y -> degrees x <= degrees y.
Proof.
  intros H; unfold degrees, Rdiv.
  apply Rmult_le_compat_r; [left; apply Rinv_0_lt_compat, PI_RGT_0 | lra].
Qed.

Lemma degrees_lt (x y : R) : x < y -> degrees x < degrees y.
Proof.
  intros H; unfold degrees, Rdiv.
  apply Rmult_lt_compat_r; [apply Rinv_0_lt_compat, PI_RGT_0 | lra].
Qed.

Lemma degrees_PI : degrees PI = 180.
Proof. unfold degrees; pose proof PI_RGT_0; field; lra. Qed.

Lemma degrees_PI2 : degrees (PI / 2) = 90.
Proof. unfold degrees; pose proof PI_RGT_0; field; lra. Qed.

Lemma degrees_opp (x : R) : degrees (- x) = - degrees x.
Proof. unfold degrees; pose proof PI_RGT_0; field; lra. Qed.

Lemma degrees_0 : degrees 0 = 0.
Proof. unfold degrees; pose proof PI_RGT_0; field; lra. Qed.

Lemma degrees_radians_plus (lon t : R) :
  degrees (radians lon + t) = lon + degrees t.
Proof. unfold degrees, radians; pose proof PI_RGT_0; field; lra. Qed.

(** [degrees(atan2(y, x))] lies in [(-180, 180]]. *)
Lemma degrees_atan2_range (y x : R) :
  -180 < degrees (atan2 y x) <= 180.
Proof.
  pose proof (atan2_range y x) as [H1 H2].
  apply degrees_lt in H1; apply degrees_le in H2.
  rewrite degrees_opp, degrees_PI in H1; rewrite degrees_PI in H2.
  split; lra.
Qed.

(** * Claims about the destination point ([rotate_bearing]) *)




(** * Claims about the absence of guards in the distance helpers *)

Ltac libm_rewrite :=
  match goal with
  | E : ?l = _ |- context [?l] => rewrite E
  end.

(** Evaluate the double model under [c_library_values lm]: compute, then
    replace each call of the C library by its tabulated value. *)
Ltac libm_eval H :=
  destruct H as (Hs & Hc & Ha & Ht & Hp);
  cbn [agrees1 agrees2 fold_right sin_table cos_table asin_table atan2_table
       pow_table fst snd] in Hs, Hc, Ha, Ht, Hp;
  repeat match goal with E : _ /\ _ |- _ => destruct E end;
  cbv -[c_sin c_cos c_asin c_atan2 c_pow];
  repeat (libm_rewrite; cbv -[c_sin c_cos c_asin c_atan2 c_pow]).

Lemma tabulated_libm_values : c_library_values tabulated_libm.
Proof. vm_compute; repeat split. Qed.

(** C2 (as amended): no copy of the haversine helper clamps [a] before
    [sqrt(a)] and [sqrt(1 - a)].  In IEEE double arithmetic, with the C
    library's [sin], [cos] and [pow], the valid antipodal pair
    [(8, 0)], [(-8, 180)] gives [a = 1.0000000000000002] (the double just
    above 1), so [sqrt(1 - a)] raises ValueError in all three copies. *)
Theorem C2_antipodal_sqrt_domain_error (lm : Libm) :
  c_library_values lm ->
  hav_a_f lm 8 0 (-8) 180 = Ok 0x1.0000000000001p+0%float /\
  haversine_distance_f lm 8 0 (-8) 180 = Err ValueError /\
  calculate_distance_f lm 8 0 (-8) 180 = Err ValueError /\
  haversine_f lm 8 0 (-8) 180 = Err ValueError.
Proof.
  intros H; libm_eval H.
  repeat split.
Qed.

Lemma C2_witness :
  c_library_values tabulated_libm /\
  (hav_a_f tabulated_libm 8 0 (-8) 180 = Ok 0x1.0000000000001p+0%float /\
   haversine_distance_f tabulated_libm 8 0 (-8) 180 = Err ValueError /\
   calculate_distance_f tabulated_libm 8 0 (-8) 180 = Err ValueError /\
   haversine_f tabulated_libm 8 0 (-8) 180 = Err ValueError).
Proof.
  split; [exact tabulated_libm_values|].
  exact (C2_antipodal_sqrt_domain_error tabulated_libm tabulated_libm_values).
Defined.

(** C2: the distance is not defined for every pair of valid points: with
    the C library's values, [haversine_distance((8, 0), (-8, 180))]
    raises ValueError, where a clamp of [a] to [[0, 1]] would have
    returned the antipodal distance. *)
Lemma C2_counterexample :
  exists lm, c_library_values lm /\
    haversine_distance_f lm 8 0 (-8) 180 = Err ValueError.
Proof.
  exists tabulated_libm; split; [exact tabulated_libm_values | vm_compute; reflexivity].
Qed.


(** * Claims about the intersection helper on two meridians *)

Lemma Rfloor_eq (x : R) (n : Z) : IZR n <= x < IZR n + 1 -> Rfloor x = IZR n.
Proof.
  intros [H1 H2]; unfold Rfloor.
  rewrite <- (tech_up x (n + 1)); [rewrite plus_IZR; ring | rewrite plus_IZR; lra | rewrite plus_IZR; lra].
Qed.

(** The two stations [(0, 0)] and [(0, 10)] with bearing 0 (due
    north): [line_intersection] evaluates to the north pole. *)
Lemma meridians_intersection :
  line_intersection (0, 0) 0 (0, 10) 0 = Ok (Some (90, 0)).
Proof.
  pose proof PI_RGT_0 as Hpi. pose proof PI2_3_2 as Hpi3.
  unfold line_intersection; cbv zeta; simpl fst; simpl snd.
  replace (radians 0) with 0 by (unfold radians; field).
  replace (radians 10) with (PI / 18) by (unfold radians; field).
  replace ((0 - 0) / 2) with 0 by field.
  replace ((PI / 18 - 0) / 2) with (PI / 36) by field.
  replace (PI / 18 - 0) with (PI / 18) by ring.
  rewrite sin_0, cos_0.
  replace (0 ^ 2 + 1 * 1 * sin (PI / 36) ^ 2) with (sin (PI / 36) ^ 2) by ring.
  assert (H36 : 0 <= sin (PI / 36)) by (apply sin_ge_0; lra).
  rewrite py_sqrt_ok by apply pow2_ge_0; rewrite bind_Ok; cbv beta.
  rewrite sqrt_pow2 by exact H36.
  rewrite py_asin_ok by apply SIN_bound; rewrite bind_Ok; cbv beta.
  rewrite asin_sin by lra.
  replace (2 * (PI / 36)) with (PI / 18) by field.
  rewrite Reqb_false by lra; cbv iota.
  assert (H18 : 0 < sin (PI / 18)) by (apply sin_gt_0; lra).
  replace (0 - 0 * cos (PI / 18)) with 0 by ring.
  rewrite Rmult_1_r.
  rewrite py_div_ok by lra.
  replace (0 / sin (PI / 18)) with 0 by (field; lra).
  repeat (rewrite bind_Ok; cbv beta).
  rewrite py_acos_ok by lra.
  repeat (rewrite bind_Ok; cbv beta).
  rewrite acos_0, Rltb_true by exact H18; cbv iota.
  rewrite py_acos_ok by lra; rewrite bind_Ok; cbv beta; rewrite acos_0.
  replace (0 - PI / 2 + PI) with (PI / 2) by lra.
  replace (2 * PI - PI / 2 - 0 + PI) with (5 * PI / 2) by lra.
  assert (Hm1 : py_mod (PI / 2) (2 * PI) = PI / 2).
  { unfold py_mod; rewrite (Rfloor_eq _ 0); [field|].
    replace (PI / 2 / (2 * PI)) with (1 / 4) by (field; lra); lra. }
  assert (Hm2 : py_mod (5 * PI / 2) (2 * PI) = PI / 2).
  { unfold py_mod; rewrite (Rfloor_eq _ 1); [field|].
    replace (5 * PI / 2 / (2 * PI)) with (5 / 4) by (field; lra); lra. }
  rewrite Hm1, Hm2.
  replace (PI / 2 - PI) with (- (PI / 2)) by field.
  rewrite sin_neg, cos_neg, sin_PI2, cos_PI2.
  rewrite Reqb_false by lra; cbn [andb].
  rewrite Rltb_false by lra.
  replace (- 0 * 0 + - (1) * - (1) * cos (PI / 18)) with (cos (PI / 18)) by field.
  rewrite py_acos_ok by apply COS_bound; rewrite bind_Ok; cbv beta.
  rewrite acos_cos by lra.
  replace (sin (PI / 18) * - (1) * - (1)) with (sin (PI / 18)) by ring.
  replace (0 + 0 * cos (PI / 18)) with 0 by ring.
  rewrite atan2_pos_y_0 by exact H18.
  rewrite sin_PI2, cos_PI2.
  replace (0 * 0 + 1 * 1 * 1) with 1 by ring.
  rewrite py_asin_ok by lra; rewrite bind_Ok; cbv beta.
  rewrite asin_1, sin_PI2.
  replace (0 * 1 * 1) with 0 by ring.
  replace (0 - 0 * 1) with 0 by ring.
  rewrite atan2_0_0, Rplus_0_l, degrees_PI2, degrees_0.
  reflexivity.
Qed.

(** C3 (as amended): for the stations on the equator at longitudes 0
    and 10, both with bearing 0 (due north), [line_intersection] does not
    fail: it returns the north pole [(90, 0)], where the two meridians
    meet. *)
Theorem C3_meridians_meet_at_north_pole :
  line_intersection (0, 0) 0 (0, 10) 0 = Ok (Some (90, 0)).
Proof. exact meridians_intersection. Qed.

(** C3: the same input does not end in the "no intersection" outcome
    ([None], the spec's DegenerateInputError) nor in an exception: a
    point is returned. *)
Lemma C3_counterexample :
  line_intersection (0, 0) 0 (0, 10) 0 <> Ok None /\
  exists p, line_intersection (0, 0) 0 (0, 10) 0 = Ok (Some p).
Proof.
  rewrite meridians_intersection.
  split; [discriminate | eexists; reflexivity].
Qed.


Lemma meridians_meet_rev (lon0 : R) :
  line_intersection (0, lon0 + 10) 0 (0, lon0) 0 = Ok (Some (90, lon0 + 10)).
Proof.
  pose proof PI_RGT_0 as Hpi. pose proof PI2_3_2 as Hpi3.
  unfold line_intersection; cbv zeta; simpl fst; simpl snd.
  replace (radians 0) with 0 by (unfold radians; field).
  replace (radians lon0 - radians (lon0 + 10)) with (- (PI / 18))
    by (unfold radians; field).
  replace ((0 - 0) / 2) with 0 by field.
  replace (- (PI / 18) / 2) with (- (PI / 36)) by field.
  rewrite sin_0, cos_0, sin_neg.
  replace (0 ^ 2 + 1 * 1 * (- sin (PI / 36)) ^ 2) with (sin (PI / 36) ^ 2) by ring.
  assert (H36 : 0 <= sin (PI / 36)) by (apply sin_ge_0; lra).
  rewrite py_sqrt_ok by apply pow2_ge_0; rewrite bind_Ok; cbv beta.
  rewrite sqrt_pow2 by exact H36.
  rewrite py_asin_ok by apply SIN_bound; rewrite bind_Ok; cbv beta.
  rewrite asin_sin by lra.
  replace (2 * (PI / 36)) with (PI / 18) by field.
  rewrite Reqb_false by lra; cbv iota.
  assert (H18 : 0 < sin (PI / 18)) by (apply sin_gt_0; lra).
  replace (0 - 0 * cos (PI / 18)) with 0 by ring.
  rewrite Rmult_1_r.
  rewrite py_div_ok by lra.
  replace (0 / sin (PI / 18)) with 0 by (field; lra).
  repeat (rewrite bind_Ok; cbv beta).
  rewrite py_acos_ok by lra.
  repeat (rewrite bind_Ok; cbv beta).
  rewrite acos_0, sin_neg, Rltb_false by lra; cbv iota.
  rewrite py_acos_ok by lra; rewrite bind_Ok; cbv beta; rewrite acos_0.
  replace (0 - (2 * PI - PI / 2) + PI) with (- (PI / 2)) by lra.
  replace (PI / 2 - 0 + PI) with (3 * PI / 2) by lra.
  assert (Hm1 : py_mod (- (PI / 2)) (2 * PI) = 3 * PI / 2).
  { unfold py_mod; rewrite (Rfloor_eq _ (-1)); [field|].
    replace (- (PI / 2) / (2 * PI)) with (- (1 / 4)) by (field; lra); lra. }
  assert (Hm2 : py_mod (3 * PI / 2) (2 * PI) = 3 * PI / 2).
  { unfold py_mod; rewrite (Rfloor_eq _ 0); [field|].
    replace (3 * PI / 2 / (2 * PI)) with (3 / 4) by (field; lra); lra. }
  rewrite Hm1, Hm2.
  replace (3 * PI / 2 - PI) with (PI / 2) by field.
  rewrite sin_PI2, cos_PI2.
  rewrite Reqb_false by lra; cbn [andb].
  rewrite Rltb_false by lra.
  replace (- 0 * 0 + 1 * 1 * cos (PI / 18)) with (cos (PI / 18)) by field.
  rewrite py_acos_ok by apply COS_bound; rewrite bind_Ok; cbv beta.
  rewrite acos_cos by lra.
  replace (sin (PI / 18) * 1 * 1) with (sin (PI / 18)) by ring.
  replace (0 + 0 * cos (PI / 18)) with 0 by ring.
  rewrite atan2_pos_y_0 by exact H18.
  rewrite sin_PI2, cos_PI2.
  replace (0 * 0 + 1 * 1 * 1) with 1 by ring.
  rewrite py_asin_ok by lra; rewrite bind_Ok; cbv beta.
  rewrite asin_1, sin_PI2.
  replace (0 * 1 * 1) with 0 by ring.
  replace (0 - 0 * 1) with 0 by ring.
  rewrite atan2_0_0, Rplus_0_r, degrees_PI2.
  replace (degrees (radians (lon0 + 10))) with (lon0 + 10) by (unfold degrees, radians; field; lra).
  reflexivity.
Qed.

(** * Round trip: distance after projection *)

(** [sqrt(x^2 + y^2) = x * sqrt(1 + (y/x)^2)] for [x > 0]. *)
Lemma sqrt_scale (x y : R) : 0 < x ->
  sqrt (x ^ 2 + y ^ 2) = x * sqrt (1 + (y / x)²).
Proof.
  intros Hx.
  replace (x ^ 2 + y ^ 2) with (x ^ 2 * (1 + (y / x)²))
    by (unfold Rsqr; field; lra).
  rewrite sqrt_mult_alt by (apply pow2_ge_0).
  rewrite sqrt_pow2 by lra; reflexivity.
Qed.

Lemma cos_atan2 (y x : R) : 0 < x ^ 2 + y ^ 2 ->
  sqrt (x ^ 2 + y ^ 2) * cos (atan2 y x) = x.
Proof.
  intros Hp.
  assert (Hq : 0 < sqrt (1 + (y / x)²))
    by (apply sqrt_lt_R0; pose proof (Rle_0_sqr (y / x)); lra).
  unfold atan2.
  destruct (Rltb 0 x) eqn:E0.
  - unfold Rltb in E0; destruct (Rlt_dec 0 x) as [Hx|]; [|discriminate].
    rewrite sqrt_scale by exact Hx; rewrite cos_atan.
    field; lra.
  - destruct (Rltb x 0) eqn:E1.
    + unfold Rltb in E0, E1.
      destruct (Rlt_dec 0 x); [discriminate|].
      destruct (Rlt_dec x 0) as [Hx|]; [|discriminate].
      assert (Hs : sqrt (x ^ 2 + y ^ 2) = - x * sqrt (1 + (y / x)²)).
      { replace (x ^ 2 + y ^ 2) with ((- x) ^ 2 + y ^ 2) by ring.
        rewrite sqrt_scale by lra.
        replace (y / - x) with (- (y / x)) by (field; lra).
        rewrite <- Rsqr_neg; reflexivity. }
      assert (Hc : cos (atan (y / x) - PI) = - cos (atan (y / x))).
      { rewrite cos_minus, cos_PI, sin_PI; ring. }
      destruct (Rltb y 0).
      * rewrite Hs, Hc, cos_atan; field; lra.
      * rewrite Hs, neg_cos, cos_atan; field; lra.
    + unfold Rltb in E0, E1.
      destruct (Rlt_dec 0 x); [discriminate|].
      destruct (Rlt_dec x 0); [discriminate|].
      assert (Hx : x = 0) by lra; subst x.
      destruct (Rltb 0 y) eqn:E2.
      * rewrite cos_PI2; ring.
      * destruct (Rltb y 0) eqn:E3.
        -- rewrite cos_neg, cos_PI2; ring.
        -- (* x = 0 and y = 0 contradict the hypothesis *)
           unfold Rltb in E2, E3.
           destruct (Rlt_dec 0 y); [discriminate|].
           destruct (Rlt_dec y 0); [discriminate|].
           assert (y = 0) by lra; subst y; lra.
Qed.

Lemma scaled_cos_atan2 (c X Y : R) : 0 <= c ->
  X ^ 2 + Y ^ 2 = c ^ 2 -> c * cos (atan2 Y X) = X.
Proof.
  intros Hc HXY.
  destruct (Req_dec c 0) as [Hc0 | Hc0].
  - subst c. assert (X = 0) by nra. subst X. ring.
  - assert (Hp : 0 < X ^ 2 + Y ^ 2) by (rewrite HXY; apply pow_lt; lra).
    pose proof (cos_atan2 Y X Hp) as H.
    rewrite HXY, sqrt_pow2 in H by exact Hc.
    exact H.
Qed.

(** The two [atan2] arguments of [rotate_bearing]:
    [X^2 + Y^2 = cos(φ1)^2 * (1 - sin(φ2)^2)]. *)
Lemma rotate_XY_norm (s1 c1 sd cd st ct : R) :
  s1 ^ 2 + c1 ^ 2 = 1 -> sd ^ 2 + cd ^ 2 = 1 -> st ^ 2 + ct ^ 2 = 1 ->
  let s := s1 * cd + c1 * sd * ct in
  (cd - s1 * s) ^ 2 + (st * sd * c1) ^ 2 = c1 ^ 2 * (1 - s ^ 2).
Proof.
  intros E1 E2 E3 s.
  set (W := c1 * cd - s1 * sd * ct).
  assert (HX : cd - s1 * s = c1 * W).
  { assert (D : cd - s1 * s - c1 * W = cd * (1 - (s1 ^ 2 + c1 ^ 2)))
      by (unfold s, W; ring).
    rewrite E1 in D. lra. }
  assert (HW : W ^ 2 + st ^ 2 * sd ^ 2 = 1 - s ^ 2).
  { assert (D : W ^ 2 + st ^ 2 * sd ^ 2 - (1 - s ^ 2)
                = (sd ^ 2 + cd ^ 2 - 1) + sd ^ 2 * (st ^ 2 + ct ^ 2 - 1)
                  + (cd ^ 2 + sd ^ 2 * ct ^ 2) * (s1 ^ 2 + c1 ^ 2 - 1))
      by (unfold s, W; ring).
    rewrite E1, E2, E3 in D. lra. }
  rewrite HX, <- HW; ring.
Qed.

(** The tail of the haversine body recovers an angle in [[0, π]] from
    [a = (1 - cos δ) / 2]. *)
Lemma haversine_tail_angle (delta : R) : 0 <= delta <= PI ->
  haversine_tail ((1 - cos delta) / 2) = Ok (EarthRadius * delta).
Proof.
  intros Hd.
  pose proof PI_RGT_0 as Hpi.
  set (h := delta / 2).
  assert (Ha : (1 - cos delta) / 2 = sin h ^ 2)
    by (unfold h; rewrite sin_half_sq; reflexivity).
  assert (Hb : 1 - (1 - cos delta) / 2 = cos h ^ 2)
    by (rewrite Ha; pose proof (sin_cos_sq h); lra).
  assert (Hs : 0 <= sin h) by (apply sin_ge_0; unfold h; lra).
  assert (Hc : 0 <= cos h) by (apply cos_ge_0; unfold h; lra).
  unfold haversine_tail.
  rewrite Ha at 1; rewrite py_sqrt_ok by apply pow2_ge_0; rewrite bind_Ok.
  rewrite Hb; rewrite py_sqrt_ok by apply pow2_ge_0; rewrite bind_Ok.
  rewrite !sqrt_pow2 by assumption.
  f_equal.
  destruct Hc as [Hc | Hc].
  - rewrite atan2_pos_x by exact Hc.
    change (sin h / cos h) with (tan h).
    assert (Hlt : h < PI / 2).
    { destruct (Rtotal_order h (PI / 2)) as [Hl | [E | Hg]].
      - exact Hl.
      - rewrite E, cos_PI2 in Hc; lra.
      - unfold h in Hg; lra. }
    rewrite atan_tan by (unfold h in *; lra).
    unfold h; field.
  - assert (Hh : h = PI / 2).
    { destruct (Rtotal_order h (PI / 2)) as [Hl | [E | Hg]].
      - assert (0 < cos h) by (apply cos_gt_0; unfold h in *; lra). lra.
      - exact E.
      - unfold h in Hg; lra. }
    rewrite <- Hc, Hh, sin_PI2, atan2_pos_y_0 by lra.
    unfold h in Hh; unfold EarthRadius; lra.
Qed.

Lemma radians_shift (lon t : R) : radians (lon + degrees t - lon) = t.
Proof. unfold radians, degrees; pose proof PI_RGT_0; field; lra. Qed.

(** In exact real arithmetic the round trip is exact: for a start
    latitude in [[-90, 90]] and [0 <= d <= π * R], [rotate_bearing]
    returns a point at haversine distance [d] from the start. *)
Lemma round_trip_exact (lat lon bearing_deg distance_km : R) :
  -90 <= lat <= 90 -> 0 <= distance_km <= PI * EarthRadius ->
  exists lat2 lon2,
    rotate_bearing lat lon bearing_deg distance_km = Ok (lat2, lon2) /\
    haversine_distance lat lon lat2 lon2 = Ok distance_km.
Proof.
  intros Hlat Hd.
  pose proof PI_RGT_0 as Hpi.
  rewrite rotate_bearing_total.
  eexists _, _; split; [reflexivity|].
  set (phi1 := radians lat).
  set (delta := distance_km / EarthRadius).
  set (br := radians bearing_deg).
  set (s := sin phi1 * cos delta + cos phi1 * sin delta * cos br).
  assert (Hs : -1 <= s <= 1) by apply rotate_arg_bound.
  assert (Hc1 : 0 <= cos phi1).
  { apply cos_ge_0; unfold phi1, radians; nra. }
  assert (Hc2 : 0 <= cos (asin s)).
  { pose proof (asin_bound s); apply cos_ge_0; lra. }
  assert (Hsc2 : s ^ 2 + cos (asin s) ^ 2 = 1).
  { pose proof (sin_cos_sq (asin s)) as E; rewrite sin_asin in E by exact Hs.
    exact E. }
  unfold haversine_distance; rewrite hav_a_closed.
  rewrite radians_degrees, degrees_radians_plus, radians_shift.
  fold phi1.
  rewrite sin_asin by exact Hs.
  rewrite (scaled_cos_atan2 (cos phi1 * cos (asin s))).
  - replace ((1 - (sin phi1 * s + (cos delta - sin phi1 * s))) / 2)
      with ((1 - cos delta) / 2) by field.
    rewrite haversine_tail_angle.
    + unfold delta, EarthRadius; f_equal; field.
    + unfold delta, EarthRadius in *; split.
      * apply Rmult_le_pos; [lra | left; apply Rinv_0_lt_compat; lra].
      * unfold Rdiv; apply (Rmult_le_reg_r 6371); [lra|].
        rewrite Rmult_assoc, Rinv_l, Rmult_1_r by lra; lra.
  - apply Rmult_le_pos; assumption.
  - pose proof (rotate_XY_norm (sin phi1) (cos phi1) (sin delta) (cos delta)
                  (sin br) (cos br) (sin_cos_sq _) (sin_cos_sq _) (sin_cos_sq _))
      as N.
    cbv zeta in N; fold s in N; rewrite N.
    replace (1 - s ^ 2) with (cos (asin s) ^ 2) by lra.
    ring.
Qed.

(** C5 (as amended): the round trip does not hold up to half the earth's
    circumference.  In IEEE double arithmetic, with the C library's
    values, [rotate_bearing(-8, 0, 90, math.pi * 6371)] returns exactly
    [(8.0, 180.0)], the antipode, and [haversine_distance] from [(-8, 0)]
    to it raises ValueError ([a = 1.0000000000000002]), so no distance
    is returned to compare with [d]. *)
Theorem C5_round_trip_fails_at_half_circumference (lm : Libm) :
  c_library_values lm ->
  rotate_bearing_f lm (-8) 0 90 half_circumference = Ok (8, 180)%float /\
  haversine_distance_f lm (-8) 0 8 180 = Err ValueError.
Proof.
  intros H; libm_eval H.
  split; reflexivity.
Qed.

Lemma C5_witness :
  c_library_values tabulated_libm /\
  (rotate_bearing_f tabulated_libm (-8) 0 90 half_circumference = Ok (8, 180)%float /\
   haversine_distance_f tabulated_libm (-8) 0 8 180 = Err ValueError).
Proof.
  split; [exact tabulated_libm_values|].
  exact (C5_round_trip_fails_at_half_circumference tabulated_libm tabulated_libm_values).
Defined.

(** C5: for [P = (-8, 0)], bearing 90 and [d = math.pi * 6371], the
    projection succeeds but the distance back to [P] raises ValueError
    instead of returning [d] within any tolerance. *)
Lemma C5_counterexample :
  exists lm, c_library_values lm /\
    exists q, rotate_bearing_f lm (-8) 0 90 half_circumference = Ok q /\
      haversine_distance_f lm (-8) 0 (fst q) (snd q) = Err ValueError.
Proof.
  exists tabulated_libm; split; [exact tabulated_libm_values|].
  eexists; split; [vm_compute; reflexivity | vm_compute; reflexivity].
Qed.

(** * Further properties of the distance and bearing helpers *)

Lemma atan2_first_quadrant (y x : R) : 0 <= y -> 0 <= x -> 0 <= atan2 y x <= PI / 2.
Proof.
  intros Hy Hx; pose proof PI_RGT_0 as Hpi.
  unfold atan2, Rltb.
  destruct (Rlt_dec 0 x) as [Hx'|Hx'].
  - pose proof (atan_bound (y / x)) as [_ Hu].
    assert (Hq : 0 <= y / x) by (apply Rmult_le_pos; [lra | left; apply Rinv_0_lt_compat; lra]).
    split; [|lra].
    rewrite <- atan_0; destruct Hq as [Hq|Hq].
    + left; apply atan_increasing; exact Hq.
    + rewrite <- Hq; lra.
  - destruct (Rlt_dec x 0); [lra|].
    destruct (Rlt_dec 0 y); [lra|].
    destruct (Rlt_dec y 0); lra.
Qed.


Lemma atan2_0_nonneg (x : R) : 0 <= x -> atan2 0 x = 0.
Proof.
  intros [H|H].
  - rewrite atan2_pos_x by exact H; unfold Rdiv; rewrite Rmult_0_l; apply atan_0.
  - subst x; apply atan2_0_0.
Qed.



Lemma py_mod_360_high (t : R) : 360 <= t < 720 -> py_mod t 360 = t - 360.
Proof.
  intros H; unfold py_mod; rewrite (Rfloor_eq _ 1); [ring|].
  unfold Rdiv; split; lra.
Qed.

Lemma radians_0 : radians 0 = 0.
Proof. unfold radians; field. Qed.

Lemma degrees_radians (x : R) : degrees (radians x) = x.
Proof. unfold radians, degrees; pose proof PI_RGT_0; field; lra. Qed.

Lemma radians_range (x lo hi : R) : lo <= x <= hi ->
  radians lo <= radians x <= radians hi.
Proof. intros H; unfold radians; pose proof PI_RGT_0; split; nra. Qed.

Lemma radians_180 : radians 180 = PI.
Proof. unfold radians; field. Qed.

(** X1: whenever [haversine_distance] returns a distance, the two other
    copies return the same distance (the three bodies perform the same
    operations), and it lies between 0 and half the earth's circumference
    [π * R]. *)
Theorem X1_distance_bounded (lat1 lon1 lat2 lon2 v : R) :
  haversine_distance lat1 lon1 lat2 lon2 = Ok v ->
  calculate_distance lat1 lon1 lat2 lon2 = Ok v /\
  haversine lat1 lon1 lat2 lon2 = Ok v /\
  0 <= v <= PI * EarthRadius.
Proof.
  intros Hv.
  split; [rewrite calculate_distance_eq; exact Hv|].
  split; [rewrite haversine_eq; exact Hv|].
  rewrite haversine_distance_total in Hv; injection Hv as <-.
  pose proof (hav_a_range lat1 lon1 lat2 lon2) as Ha.
  pose proof (atan2_first_quadrant (sqrt (hav_a lat1 lon1 lat2 lon2))
                (sqrt (1 - hav_a lat1 lon1 lat2 lon2))
                (sqrt_pos _) (sqrt_pos _)) as Ht.
  unfold EarthRadius in *; split; lra.
Qed.

Lemma X1_witness :
  haversine_distance 0 0 0 90 =
    Ok (EarthRadius * (2 * atan2 (sqrt (hav_a 0 0 0 90)) (sqrt (1 - hav_a 0 0 0 90)))) /\
  (calculate_distance 0 0 0 90 =
     Ok (EarthRadius * (2 * atan2 (sqrt (hav_a 0 0 0 90)) (sqrt (1 - hav_a 0 0 0 90)))) /\
   haversine 0 0 0 90 =
     Ok (EarthRadius * (2 * atan2 (sqrt (hav_a 0 0 0 90)) (sqrt (1 - hav_a 0 0 0 90)))) /\
   0 <= EarthRadius * (2 * atan2 (sqrt (hav_a 0 0 0 90)) (sqrt (1 - hav_a 0 0 0 90)))
     <= PI * EarthRadius).
Proof.
  pose proof (haversine_distance_total 0 0 0 90) as H.
  split; [exact H | exact (X1_distance_bounded 0 0 0 90 _ H)].
Defined.

(** X2: two points on the equator whose longitudes differ by [Δ] with
    [0 <= Δ <= 180] are [R * radians(Δ)] apart. *)
Theorem X2_equator_distance (lon1 lon2 : R) :
  0 <= lon2 - lon1 <= 180 ->
  haversine_distance 0 lon1 0 lon2 = Ok (EarthRadius * radians (lon2 - lon1)).
Proof.
  intros H.
  unfold haversine_distance; rewrite hav_a_closed, radians_0, sin_0, cos_0.
  replace (1 - (0 * 0 + 1 * 1 * cos (radians (lon2 - lon1))))
    with (1 - cos (radians (lon2 - lon1))) by ring.
  apply haversine_tail_angle.
  pose proof (radians_range _ _ _ H) as Hr; rewrite radians_0, radians_180 in Hr.
  exact Hr.
Qed.

Lemma X2_witness :
  0 <= 10 - 0 <= 180 /\
  haversine_distance 0 0 0 10 = Ok (EarthRadius * radians (10 - 0)).
Proof.
  assert (H : 0 <= 10 - 0 <= 180) by lra.
  split; [exact H | exact (X2_equator_distance 0 10 H)].
Defined.

(** X3: two valid points on the same meridian, [lat1 <= lat2], are
    [R * radians(lat2 - lat1)] apart. *)
Theorem X3_meridian_distance (lat1 lat2 lon : R) :
  -90 <= lat1 -> lat1 <= lat2 -> lat2 <= 90 ->
  haversine_distance lat1 lon lat2 lon = Ok (EarthRadius * radians (lat2 - lat1)).
Proof.
  intros H1 H2 H3.
  unfold haversine_distance; rewrite hav_a_closed, Rminus_diag, radians_0, cos_0.
  replace (1 - (sin (radians lat1) * sin (radians lat2)
               + cos (radians lat1) * cos (radians lat2) * 1))
    with (1 - cos (radians (lat2 - lat1)))
    by (rewrite radians_minus, cos_minus; ring).
  apply haversine_tail_angle.
  assert (H : 0 <= lat2 - lat1 <= 180) by lra.
  pose proof (radians_range _ _ _ H) as Hr; rewrite radians_0, radians_180 in Hr.
  exact Hr.
Qed.

Lemma X3_witness :
  (-90 <= 0 /\ 0 <= 1 /\ 1 <= 90) /\
  haversine_distance 0 0 1 0 = Ok (EarthRadius * radians (1 - 0)).
Proof.
  assert (H1 : -90 <= 0) by lra. assert (H2 : 0 <= 1) by lra.
  assert (H3 : 1 <= 90) by lra.
  split; [split; [exact H1 | split; assumption] | exact (X3_meridian_distance 0 1 0 H1 H2 H3)].
Defined.





Lemma initial_bearing_self (lat lon : R) : initial_bearing lat lon lat lon = 0.
Proof.
  unfold initial_bearing; cbv zeta.
  rewrite Rminus_diag, radians_0, sin_0, cos_0, Rmult_0_l.
  replace (cos (radians lat) * sin (radians lat)
           - sin (radians lat) * cos (radians lat) * 1) with 0 by ring.
  rewrite atan2_0_0, degrees_0, Rplus_0_l.
  rewrite py_mod_360_high by lra; ring.
Qed.

(** X6: the bearing from a point to itself is 0 (not an error), in both
    copies: [atan2(0, 0)] is 0. *)
Theorem X6_bearing_self_zero (lat lon : R) :
  initial_bearing lat lon lat lon = 0 /\ calculate_bearing lat lon lat lon = 0.
Proof. split; apply initial_bearing_self. Qed.

(** X7: projecting a valid point ([-90 <= lat <= 90]) over distance 0
    returns the point itself, whatever the bearing. *)
Theorem X7_rotate_zero_distance (lat lon bearing_deg : R) :
  -90 <= lat <= 90 -> rotate_bearing lat lon bearing_deg 0 = Ok (lat, lon).
Proof.
  intros H.
  rewrite rotate_bearing_total.
  replace (0 / EarthRadius) with 0 by (unfold EarthRadius; field).
  rewrite cos_0, sin_0.
  replace (sin (radians lat) * 1 + cos (radians lat) * 0 * cos (radians bearing_deg))
    with (sin (radians lat)) by ring.
  pose proof (radians_range _ _ _ H) as Hr.
  replace (radians (-90)) with (- (PI / 2)) in Hr by (unfold radians; field).
  replace (radians 90) with (PI / 2) in Hr by (unfold radians; field).
  rewrite asin_sin by exact Hr.
  replace (sin (radians bearing_deg) * 0 * cos (radians lat)) with 0 by ring.
  rewrite atan2_0_nonneg.
  - rewrite Rplus_0_r, !degrees_radians; reflexivity.
  - pose proof (SIN_bound (radians lat)); nra.
Qed.

Lemma X7_witness :
  -90 <= 14 <= 90 /\ rotate_bearing 14 121 45 0 = Ok (14, 121).
Proof.
  assert (H : -90 <= 14 <= 90) by lra.
  split; [exact H | exact (X7_rotate_zero_distance 14 121 45 H)].
Defined.

(** * The point returned by [line_intersection] *)

Lemma bind_Ok_inv {A B : Type} (m : Result A) (f : A -> Result B) (v : B) :
  bind m f = Ok v -> exists x, m = Ok x /\ f x = Ok v.
Proof. destruct m as [x|e]; simpl; [intros H; exists x; split; [reflexivity | exact H] | discriminate]. Qed.

Lemma py_asin_inv (y x : R) : py_asin y = Ok x -> x = asin y.
Proof.
  unfold py_asin; destruct (Rltb y (-1)); [discriminate|].
  destruct (Rltb 1 y); [discriminate|]; intros H; injection H; auto.
Qed.

Lemma degrees_asin_range (y : R) : -90 <= degrees (asin y) <= 90.
Proof.
  pose proof (asin_bound y) as [H1 H2].
  apply degrees_le in H1; apply degrees_le in H2.
  rewrite degrees_opp, degrees_PI2 in H1; rewrite degrees_PI2 in H2.
  split; lra.
Qed.

Lemma intersection_point_range (p1 p2 : R * R) (b1 b2 la lo : R) :
  line_intersection p1 b1 p2 b2 = Ok (Some (la, lo)) ->
  -90 <= la <= 90 /\ snd p1 - 180 < lo <= snd p1 + 180.
Proof.
  unfold line_intersection; cbv zeta; intros H.
  repeat first
    [ discriminate H
    | apply bind_Ok_inv in H; destruct H as [? [? H]]; cbv beta in H
    | match type of H with context [if ?b then _ else _] => destruct b end;
      cbv beta iota in H ].
  all: injection H as E1 E2; subst la lo;
    match goal with Hp : py_asin _ = Ok ?p3 |- -90 <= degrees ?p3 <= 90 /\ _ =>
      apply py_asin_inv in Hp; rewrite Hp end;
    split; [apply degrees_asin_range|];
    rewrite degrees_radians_plus;
    match goal with |- _ < _ + degrees (atan2 ?y ?x) <= _ =>
      pose proof (degrees_atan2_range y x) end;
    split; lra.
Qed.

(** X8: whenever [line_intersection] returns a point, its latitude lies
    in [[-90, 90]] and its longitude in [(lon1 - 180, lon1 + 180]], where
    [lon1] is the longitude of the first station: the longitude is not
    normalised. *)
Theorem X8_intersection_point_range (p1 p2 : R * R) (b1 b2 la lo : R) :
  line_intersection p1 b1 p2 b2 = Ok (Some (la, lo)) ->
  -90 <= la <= 90 /\ snd p1 - 180 < lo <= snd p1 + 180.
Proof. apply intersection_point_range. Qed.

Lemma X8_witness :
  line_intersection (0, 0) 0 (0, 10) 0 = Ok (Some (90, 0)) /\
  (-90 <= 90 <= 90 /\ snd (0, 0) - 180 < 0 <= snd (0, 0) + 180).
Proof.
  split; [exact meridians_intersection|].
  exact (X8_intersection_point_range (0, 0) (0, 10) 0 0 90 0 meridians_intersection).
Defined.

(** * The origin/destination script of src/geolocation.py *)

Lemma py_truthy_zero : py_truthy_float (Some 0) = false.
Proof. unfold py_truthy_float; rewrite Reqb_refl; reflexivity. Qed.

Lemma route_fallback (lat lon : option R) :
  (py_truthy_float lat && py_truthy_float lon)%bool = false ->
  compute_route lat lon = Ok origin_route.
Proof.
  intros H; unfold compute_route, destination; rewrite H; cbv beta iota zeta.
  rewrite haversine_distance_self, bind_Ok, !initial_bearing_self; reflexivity.
Qed.

(** X9: a GPS fix whose latitude or longitude is exactly 0 (on the
    equator or on the prime meridian), like a missing coordinate, is
    discarded: the destination falls back to the origin, the distance and
    both bearings are 0, and the log is skipped. *)
Theorem X9_zero_fix_falls_back_to_origin (x : option R) :
  compute_route (Some 0) x = Ok origin_route /\
  compute_route x (Some 0) = Ok origin_route /\
  compute_route None x = Ok origin_route /\
  compute_route x None = Ok origin_route /\
  log_skipped origin_route = true.
Proof.
  split; [apply route_fallback; rewrite py_truthy_zero; reflexivity|].
  split; [apply route_fallback; rewrite py_truthy_zero, Bool.andb_false_r; reflexivity|].
  split; [apply route_fallback; reflexivity|].
  split; [apply route_fallback; apply Bool.andb_false_r|].
  unfold log_skipped; cbn [o_lat d_lat o_lon d_lon origin_route].
  rewrite !Reqb_refl; reflexivity.
Qed.

(** * The triangulation script of src/triangulate_app.py *)

Lemma line_intersection_same (p : R * R) (b1 b2 : R) :
  line_intersection p b1 p b2 = Ok None.
Proof.
  unfold line_intersection; cbv zeta.
  rewrite !Rminus_diag.
  replace (0 / 2) with 0 by field.
  rewrite sin_0.
  replace (0 ^ 2 + cos (radians (fst p)) * cos (radians (fst p)) * 0 ^ 2)
    with 0 by ring.
  rewrite py_sqrt_ok by lra; simpl.
  rewrite sqrt_0, py_asin_ok by lra; simpl.
  rewrite asin_0, Rmult_0_r, Reqb_refl; reflexivity.
Qed.

Lemma collect_range (coord : string -> R * R) (bearing : string -> R)
    (ps : list (string * string * string)) (ips : list (string * (R * R))) :
  collect_intersections coord bearing ps = Ok ips ->
  Forall (fun e => -90 <= fst (snd e) <= 90 /\ exists p q, In (fst e, p, q) ps) ips.
Proof.
  revert ips; induction ps as [|[[tag p] q] rest IH]; simpl; intros ips H.
  - injection H as <-; constructor.
  - apply bind_Ok_inv in H as [pt [Hpt H]].
    apply bind_Ok_inv in H as [others [Ho H]].
    injection H as <-.
    assert (Hr : Forall (fun e => -90 <= fst (snd e) <= 90 /\
                   exists p0 q0, In (fst e, p0, q0) ((tag, p, q) :: rest)) others).
    { eapply Forall_impl; [|exact (IH _ Ho)].
      intros e [H1 [p' [q' H2]]]; split; [exact H1 | exists p', q'; right; exact H2]. }
    destruct pt as [[la lo]|]; [|exact Hr].
    constructor; [|exact Hr].
    split; [apply intersection_point_range in Hpt; simpl; tauto|].
    exists p, q; left; reflexivity.
Qed.

(** X10: when the script's intersections are computed without an
    exception, every stored intersection has a latitude in [[-90, 90]]
    and is stored under one of the tags "AB", "BC", "CA". *)
Theorem X10_stored_intersections (coord : string -> R * R) (bearing : string -> R)
    (ips : list (string * (R * R))) :
  i_pts coord bearing = Ok ips ->
  Forall (fun e => -90 <= fst (snd e) <= 90 /\ In (fst e) ["AB"; "BC"; "CA"]%string) ips.
Proof.
  intros H; apply collect_range in H.
  eapply Forall_impl; [|exact H].
  intros e [H1 [p [q H2]]]; split; [exact H1|].
  simpl in H2; destruct H2 as [E|[E|[E|[]]]]; injection E; intros _ _ <-; simpl; tauto.
Qed.

Lemma X10_witness :
  i_pts (fun k => if String.eqb k "B" then (0, 10) else (0, 0)) (fun _ => 0)
    = Ok [("AB", (90, 0)); ("BC", (90, 10))]%string /\
  Forall (fun e => -90 <= fst (snd e) <= 90 /\ In (fst e) ["AB"; "BC"; "CA"]%string)
         [("AB", (90, 0)); ("BC", (90, 10))]%string.
Proof.
  assert (E1 : line_intersection (0, 0) 0 (0, 10) 0 = Ok (Some (90, 0)))
    by exact meridians_intersection.
  assert (E2 : line_intersection (0, 10) 0 (0, 0) 0 = Ok (Some (90, 10))).
  { pose proof (meridians_meet_rev 0) as E; rewrite Rplus_0_l in E; exact E. }
  assert (E3 : line_intersection (0, 0) 0 (0, 0) 0 = Ok None)
    by apply line_intersection_same.
  assert (H : i_pts (fun k => if String.eqb k "B" then (0, 10) else (0, 0)) (fun _ => 0)
                = Ok [("AB", (90, 0)); ("BC", (90, 10))]%string).
  { unfold i_pts, pairs; cbn -[line_intersection IZR].
    rewrite E1, E2, E3; reflexivity. }
  split; [exact H | exact (X10_stored_intersections _ _ _ H)].
Defined.

Lemma fold_sum_acc (g : R * R -> R) (pts : list (R * R)) (acc : R) :
  fold_left (fun a p => a + g p) pts acc = acc + fold_left (fun a p => a + g p) pts 0.
Proof.
  revert acc; induction pts as [|p ps IH]; simpl; intros acc; [ring|].
  rewrite (IH (acc + g p)), (IH (0 + g p)); ring.
Qed.

Lemma fold_sum_bound (g : R * R -> R) (lo hi : R) (pts : list (R * R)) :
  Forall (fun p => lo <= g p <= hi) pts ->
  lo * INR (List.length pts) <= fold_left (fun a p => a + g p) pts 0
    <= hi * INR (List.length pts).
Proof.
  induction pts as [|p ps IH]; intros H; [simpl; split; lra|].
  inversion H as [|? ? Hp Hps]; subst.
  change (List.length (p :: ps)) with (S (List.length ps)); rewrite S_INR.
  cbn [fold_left]; rewrite fold_sum_acc; specialize (IH Hps).
  split; lra.
Qed.

Lemma assoc_get_In {A : Type} (k : string) (l : list (string * A)) (v : A) :
  assoc_get k l = Some v -> In (k, v) l.
Proof.
  induction l as [|[k' v'] rest IH]; simpl; [discriminate|].
  destruct (String.eqb k k') eqn:E.
  - apply String.eqb_eq in E; subst; intros H; injection H as <-; left; reflexivity.
  - intros H; right; exact (IH H).
Qed.

Lemma select_points_spec (ips : list (string * (R * R))) (sel : list string)
    (pts : list (R * R)) :
  select_points ips sel = Some pts ->
  List.length pts = List.length sel /\ forall x, In x pts -> exists k, In (k, x) ips.
Proof.
  revert pts; induction sel as [|k rest IH]; simpl; intros pts H.
  - injection H as <-; split; [reflexivity | intros x []].
  - destruct (assoc_get k ips) as [p|] eqn:Ek; [|discriminate].
    destruct (select_points ips rest) as [ps|] eqn:Er; [|discriminate].
    injection H as <-; destruct (IH ps eq_refl) as [Hl Hin].
    split; [simpl; rewrite Hl; reflexivity|].
    intros x [<-|Hx]; [exists k; apply assoc_get_In; exact Ek | exact (Hin x Hx)].
Qed.

(** X11: the centre of a non-empty selection of stored intersections
    (all of latitude in [[-90, 90]], as X10 gives) is computed without a
    division error and has a latitude in [[-90, 90]]. *)
Theorem X11_intersection_center_latitude (ips : list (string * (R * R)))
    (sel : list string) (pts : list (R * R)) :
  Forall (fun e => -90 <= fst (snd e) <= 90) ips ->
  sel <> [] -> select_points ips sel = Some pts ->
  exists c, int_center pts = Ok c /\ -90 <= fst c <= 90.
Proof.
  intros Hips Hsel Hpts.
  destruct (select_points_spec _ _ _ Hpts) as [Hl Hin].
  assert (Hn : 0 < INR (List.length pts)).
  { rewrite Hl; apply lt_0_INR; destruct sel; [congruence | simpl; lia]. }
  assert (Hb : Forall (fun p => -90 <= fst p <= 90) pts).
  { apply Forall_forall; intros x Hx; destruct (Hin x Hx) as [k Hk].
    rewrite Forall_forall in Hips; exact (Hips (k, x) Hk). }
  pose proof (fold_sum_bound fst _ _ pts Hb) as Hs.
  unfold int_center; cbv zeta.
  rewrite py_div_ok by lra; rewrite bind_Ok.
  rewrite py_div_ok by lra; rewrite bind_Ok.
  eexists; split; [reflexivity|]; simpl fst.
  unfold sum_first; split.
  - apply (Rmult_le_reg_r (INR (List.length pts))); [exact Hn|].
    unfold Rdiv; rewrite Rmult_assoc, Rinv_l, Rmult_1_r by lra; lra.
  - apply (Rmult_le_reg_r (INR (List.length pts))); [exact Hn|].
    unfold Rdiv; rewrite Rmult_assoc, Rinv_l, Rmult_1_r by lra; lra.
Qed.

Lemma X11_witness :
  (Forall (fun e => -90 <= fst (snd e) <= 90)
          [("AB", (90, 0)); ("BC", (80, 10)); ("CA", (70, 20))]%string /\
   ["AB"; "CA"]%string <> [] /\
   select_points [("AB", (90, 0)); ("BC", (80, 10)); ("CA", (70, 20))]%string
                 ["AB"; "CA"]%string = Some [(90, 0); (70, 20)]) /\
  exists c, int_center [(90, 0); (70, 20)] = Ok c /\ -90 <= fst c <= 90.
Proof.
  assert (H1 : Forall (fun e => -90 <= fst (snd e) <= 90)
                 [("AB", (90, 0)); ("BC", (80, 10)); ("CA", (70, 20))]%string)
    by (repeat constructor; simpl; lra).
  assert (H2 : ["AB"; "CA"]%string <> []) by discriminate.
  assert (H3 : select_points [("AB", (90, 0)); ("BC", (80, 10)); ("CA", (70, 20))]%string
                 ["AB"; "CA"]%string = Some [(90, 0); (70, 20)])
    by reflexivity.
  split; [split; [exact H1 | split; assumption]|].
  exact (X11_intersection_center_latitude _ _ _ H1 H2 H3).
Defined.

Lemma project_all_ok (coord : string -> R * R) (bearing : string -> R) (ks : list string) :
  exists pp, project_all coord bearing ks = Ok pp /\ map fst pp = ks /\
    Forall (fun e => -90 <= fst (snd e) <= 90) pp.
Proof.
  induction ks as [|k rest [pp [Hpp [Hk Hb]]]].
  - exists []; split; [reflexivity | split; [reflexivity | constructor]].
  - cbn [project_all]; rewrite rotate_bearing_total, bind_Ok, Hpp, bind_Ok.
    eexists; split; [reflexivity|].
    split; [simpl; rewrite Hk; reflexivity|].
    constructor; [simpl; apply degrees_asin_range | exact Hb].
Qed.

(** X12: for every station placement and every bearing, the three
    projections are computed without an exception, each has a latitude
    in [[-90, 90]], and so does the projection centre. *)
Theorem X12_projection_center (coord : string -> R * R) (bearing : string -> R) :
  exists pp, proj_pts coord bearing = Ok pp /\ map fst pp = stations /\
    Forall (fun e => -90 <= fst (snd e) <= 90) pp /\
    -90 <= fst (proj_center pp) <= 90.
Proof.
  destruct (project_all_ok coord bearing stations) as [pp [Hpp [Hk Hb]]].
  exists pp; split; [exact Hpp | split; [exact Hk | split; [exact Hb|]]].
  assert (Hb' : Forall (fun p => -90 <= fst p <= 90) (map snd pp))
    by (apply Forall_map; exact Hb).
  pose proof (fold_sum_bound fst _ _ _ Hb') as Hs.
  assert (Hl : List.length (map snd pp) = 3%nat).
  { rewrite length_map, <- (length_map fst pp), Hk; reflexivity. }
  rewrite Hl in Hs; simpl in Hs.
  unfold proj_center, sum_first; simpl fst; split; lra.
Qed.

Lemma Rltb_true_inv (x y : R) : Rltb x y = true -> x < y.
Proof. unfold Rltb; destruct (Rlt_dec x y); [auto | discriminate]. Qed.

Lemma Rltb_false_inv (x y : R) : Rltb x y = false -> y <= x.
Proof. unfold Rltb; destruct (Rlt_dec x y); [discriminate | intros; lra]. Qed.

(** Python's [min] with a key returns an element of least key. *)
Lemma py_min_by_spec {A : Type} (key : A -> R) (x : A) (xs : list A) :
  In (py_min_by key x xs) (x :: xs) /\
  forall y, In y (x :: xs) -> key (py_min_by key x xs) <= key y.
Proof.
  unfold py_min_by; revert x; induction xs as [|y ys IH]; intros x; simpl.
  - split; [left; reflexivity | intros z [<-|[]]; lra].
  - destruct (Rltb (key y) (key x)) eqn:E.
    + apply Rltb_true_inv in E; destruct (IH y) as [Hin Hle].
      split; [right; exact Hin|].
      intros z [<-|Hz]; [pose proof (Hle y (or_introl eq_refl)); lra | exact (Hle z Hz)].
    + apply Rltb_false_inv in E; destruct (IH x) as [Hin Hle].
      split; [destruct Hin as [Hin|Hin]; [left; exact Hin | right; right; exact Hin]|].
      intros z [<-|[<-|Hz]].
      * exact (Hle _ (or_introl eq_refl)).
      * pose proof (Hle x (or_introl eq_refl)); lra.
      * exact (Hle z (or_intror Hz)).
Qed.

(** X13: unless the station is C with bearing 0, the bearing line of a
    station [k] that appears in some stored intersection tag ends at a
    stored intersection whose tag contains [k], and at one nearest to the
    station in squared degree distance among all such intersections. *)
Theorem X13_line_end_nearest (coord : string -> R * R) (bearing : string -> R)
    (ips : list (string * (R * R))) (proj_k : R * R) (k : string) :
  (String.eqb k "C" && Reqb (bearing k) 0)%bool = false ->
  (exists t p, In (t, p) ips /\ py_in k t = true) ->
  exists t, In (t, line_end coord bearing ips proj_k k) ips /\ py_in k t = true /\
    forall t' p', In (t', p') ips -> py_in k t' = true ->
      sq_dist (coord k) (line_end coord bearing ips proj_k k) <= sq_dist (coord k) p'.
Proof.
  intros Hc [t0 [p0 [Hin0 Hk0]]].
  unfold line_end; rewrite Hc.
  set (ends := map snd (filter (fun e => py_in k (fst e)) ips)).
  assert (Hends : forall v, In v ends <-> exists t, In (t, v) ips /\ py_in k t = true).
  { intros v; unfold ends; rewrite in_map_iff; split.
    - intros [[t v'] [Hv Hf]]; simpl in Hv; subst v'.
      apply filter_In in Hf as [Hf Hk]; exists t; split; assumption.
    - intros [t [Ht Hk]]; exists (t, v); split; [reflexivity|].
      apply filter_In; split; assumption. }
  destruct ends as [|e es] eqn:He.
  - exfalso; apply (proj2 (Hends p0)); exists t0; split; assumption.
  - destruct (py_min_by_spec (sq_dist (coord k)) e es) as [Hin Hle].
    destruct (proj1 (Hends _) Hin) as [t [Ht Hk]].
    exists t; split; [exact Ht | split; [exact Hk|]].
    intros t' p' Hp' Hk'; apply Hle, Hends; exists t'; split; assumption.
Qed.

Lemma X13_witness :
  ((String.eqb "B" "C" && Reqb 10 0)%bool = false /\
   exists t p, In (t, p) [("AB", (3, 0)); ("BC", (1, 1)); ("CA", (2, 0))]%string /\
               py_in "B" t = true) /\
  exists t, In (t, line_end (fun _ => (0, 0)) (fun _ => 10)
                     [("AB", (3, 0)); ("BC", (1, 1)); ("CA", (2, 0))]%string (0, 0) "B")
              [("AB", (3, 0)); ("BC", (1, 1)); ("CA", (2, 0))]%string /\
            py_in "B" t = true /\
    forall t' p', In (t', p') [("AB", (3, 0)); ("BC", (1, 1)); ("CA", (2, 0))]%string ->
      py_in "B" t' = true ->
      sq_dist (0, 0) (line_end (fun _ => (0, 0)) (fun _ => 10)
                        [("AB", (3, 0)); ("BC", (1, 1)); ("CA", (2, 0))]%string (0, 0) "B")
        <= sq_dist (0, 0) p'.
Proof.
  assert (H1 : (String.eqb "B" "C" && Reqb ((fun _ => 10) "B"%string) 0)%bool = false)
    by reflexivity.
  assert (H2 : exists t p, In (t, p) [("AB", (3, 0)); ("BC", (1, 1)); ("CA", (2, 0))]%string /\
                           py_in "B" t = true).
  { exists "AB"%string, (3, 0); split; [left; reflexivity | reflexivity]. }
  split; [split; [exact H1 | exact H2]|].
  exact (X13_line_end_nearest (fun _ => (0, 0)) (fun _ => 10) _ (0, 0) "B" H1 H2).
Defined.

(** The end point in the witness above is the nearer of the two
    intersections involving B: [(1, 1)] (tag "BC"), not [(3, 0)]. *)
Lemma line_end_example :
  line_end (fun _ => (0, 0)) (fun _ => 10)
    [("AB", (3, 0)); ("BC", (1, 1)); ("CA", (2, 0))]%string (0, 0) "B" = (1, 1).
Proof.
  unfold line_end; cbn -[Reqb sq_dist IZR].
  replace (Reqb 10 0) with false by (symmetry; apply Reqb_false; lra); cbn -[sq_dist IZR].
  unfold py_min_by; cbn -[sq_dist IZR].
  rewrite Rltb_true by (unfold sq_dist; simpl; lra); reflexivity.
Qed.

(** * Logging and the multi-user map *)

Lemma append_with_truthy_cell (headers : list string) (record : list (string * PyVal))
    (sheet : list (list PyVal)) (h : string) :
  In h headers -> py_truthy (dict_get_or_empty record h) = true ->
  append_to_sheet headers record sheet
    = sheet ++ [map (dict_get_or_empty record) headers].
Proof.
  intros Hh Ht; unfold append_to_sheet; cbv zeta.
  replace (existsb py_truthy (map (dict_get_or_empty record) headers)) with true;
    [reflexivity|].
  symmetry; apply existsb_exists; exists (dict_get_or_empty record h).
  split; [apply in_map; exact Hh | exact Ht].
Qed.

Lemma py_truthy_nonempty (s : string) : s <> ""%string -> py_truthy (PStr s) = true.
Proof.
  intros H; simpl; destruct (String.eqb s "") eqn:E; [|reflexivity].
  apply String.eqb_eq in E; contradiction.
Qed.

(** X15: both multi-user apps log their record (the email is non-empty,
    as the [if data and email] guard ensures) whenever the sheet has an
    "Email" header: exactly one row, one cell per header in header order,
    is appended. *)
Theorem X15_records_logged_with_email_header (headers : list string)
    (sheet : list (list PyVal)) (email ts : string) (lat lon : R)
    (elev addr : PyVal) (mode shared_code : string) (sos : bool) :
  email <> ""%string -> In "Email"%string headers ->
  append_to_sheet headers (geo_record email ts lat lon elev addr) sheet
    = sheet ++ [map (dict_get_or_empty (geo_record email ts lat lon elev addr)) headers] /\
  append_to_sheet headers (user_record ts email lat lon elev mode shared_code sos) sheet
    = sheet ++ [map (dict_get_or_empty
                      (user_record ts email lat lon elev mode shared_code sos)) headers].
Proof.
  intros He Hh; split; apply (append_with_truthy_cell _ _ _ _ Hh);
    apply py_truthy_nonempty; exact He.
Qed.

Lemma X15_witness :
  ("a@b.c"%string <> ""%string /\ In "Email"%string ["Email"%string]) /\
  append_to_sheet ["Email"%string] (geo_record "a@b.c" "t" 1 1 PNone PNone) []
    = [] ++ [map (dict_get_or_empty (geo_record "a@b.c" "t" 1 1 PNone PNone)) ["Email"%string]] /\
  append_to_sheet ["Email"%string] (user_record "t" "a@b.c" 1 1 PNone "Public" "" false) []
    = [] ++ [map (dict_get_or_empty
                   (user_record "t" "a@b.c" 1 1 PNone "Public" "" false)) ["Email"%string]].
Proof.
  assert (H1 : "a@b.c"%string <> ""%string) by discriminate.
  assert (H2 : In "Email"%string ["Email"%string]) by (left; reflexivity).
  split; [split; assumption|].
  exact (X15_records_logged_with_email_header _ [] _ "t" 1 1 PNone PNone "Public" "" false H1 H2).
Defined.

(** X16: a row logged with SOS on is written with Mode "Public", so it is
    never a candidate origin user in Private mode, even for its own
    group's shared code and while it is active. *)
Theorem X16_sos_row_never_origin_candidate (code ts email : string) (lat lon : R)
    (elev : PyVal) (mode shared_code : string) (active : bool) :
  mr_mode (read_row (user_record ts email lat lon elev mode shared_code true) active)
    = "Public"%string /\
  is_origin_candidate code
    (read_row (user_record ts email lat lon elev mode shared_code true) active) = false.
Proof.
  split; [reflexivity|].
  unfold is_origin_candidate; simpl.
  rewrite Bool.andb_false_r; reflexivity.
Qed.

(** X18: a row logged with SOS on is drawn for every viewer in Public
    mode and for every viewer in Private mode who also shows public users,
    whatever their shared code. *)
Theorem X18_sos_row_visible (rows : list MapRow) (code ts email : string) (sp : bool)
    (lat lon : R) (elev : PyVal) (mode shared_code : string) (active : bool) :
  let r := read_row (user_record ts email lat lon elev mode shared_code true) active in
  (In r (map_rows "Public" code sp rows) <-> In r rows) /\
  (In r (map_rows "Private" code true rows) <-> In r rows).
Proof.
  cbv zeta; unfold map_rows; split; simpl; rewrite filter_In; simpl; tauto.
Qed.

(** X20: a row logged with SOS on is filled red (alpha 255 or 50, at
    random) whether it is active or not; a row logged without SOS is grey
    once inactive, and yellow while active when it was logged in Public
    mode. *)
Theorem X20_row_colors (blink active : bool) (ts email : string) (lat lon : R)
    (elev : PyVal) (mode shared_code : string) :
  row_color blink (read_row (user_record ts email lat lon elev mode shared_code true) active)
    = [255; 0; 0; if blink then 255 else 50]%Z /\
  row_color blink (read_row (user_record ts email lat lon elev mode shared_code false) false)
    = [100; 100; 100; 100]%Z /\
  row_color blink (read_row (user_record ts email lat lon elev "Public" shared_code false) true)
    = [255; 255; 0; 200]%Z.
Proof. split; [|split]; reflexivity. Qed.

(** * The latest location per email (src/multi_geolocation.py) *)


Lemma ts_le_refl (a : option Z) : ts_le a a = true.
Proof. destruct a; simpl; [apply Z.leb_refl | reflexivity]. Qed.

Lemma ts_le_trans (a b c : option Z) :
  ts_le a b = true -> ts_le b c = true -> ts_le a c = true.
Proof.
  destruct a as [x|], b as [y|], c as [z|]; simpl; try discriminate; try reflexivity.
  rewrite !Z.leb_le; lia.
Qed.

Lemma groupby_tail1_incl (l : list GeoRow) (r : GeoRow) :
  In r (groupby_tail1 l) -> In r l.
Proof.
  induction l as [|x rest IH]; simpl; [tauto|].
  destruct (existsb _ rest); [intros H; right; exact (IH H)|].
  intros [<-|H]; [left; reflexivity | right; exact (IH H)].
Qed.

Lemma groupby_tail1_latest (l : list GeoRow) :
  StronglySorted ts_rel l ->
  forall r, In r l -> exists r', In r' (groupby_tail1 l) /\
    gr_email r' = gr_email r /\ ts_le (gr_ts r) (gr_ts r') = true.
Proof.
  induction l as [|x rest IH]; intros Hs r Hr; [destruct Hr|].
  inversion Hs as [|? ? Hrest Hall]; subst.
  rewrite Forall_forall in Hall.
  simpl groupby_tail1.
  destruct (existsb (fun r' => String.eqb (gr_email r') (gr_email x)) rest) eqn:E.
  - apply existsb_exists in E as [y [Hy Ey]]; apply String.eqb_eq in Ey.
    destruct Hr as [<-|Hr].
    + destruct (IH Hrest y Hy) as [r' [Hin [He Hle]]].
      exists r'; split; [exact Hin | split; [congruence|]].
      exact (ts_le_trans _ _ _ (Hall y Hy) Hle).
    + exact (IH Hrest r Hr).
  - destruct Hr as [<-|Hr].
    + exists x; split; [left; reflexivity | split; [reflexivity | apply ts_le_refl]].
    + destruct (IH Hrest r Hr) as [r' [Hin [He Hle]]].
      exists r'; split; [right; exact Hin | split; assumption].
Qed.

Lemma groupby_tail1_nodup (l : list GeoRow) : NoDup (map gr_email (groupby_tail1 l)).
Proof.
  induction l as [|x rest IH]; simpl; [constructor|].
  destruct (existsb (fun r' => String.eqb (gr_email r') (gr_email x)) rest) eqn:E;
    [exact IH|].
  simpl; constructor; [|exact IH].
  intros Hin; apply in_map_iff in Hin as [y [Hy Hin]].
  apply groupby_tail1_incl in Hin.
  assert (Hex : existsb (fun r' => String.eqb (gr_email r') (gr_email x)) rest = true).
  { apply existsb_exists; exists y; split; [exact Hin | apply String.eqb_eq; exact Hy]. }
  congruence.
Qed.

(** X21: whatever order the (not necessarily stable) sort leaves equal
    timestamps in, the latest locations hold one row per email, and for
    every logged row a row of the same email that is at least as late;
    since [NaT] sorts last, an email with an unparsable timestamp is shown
    at a row whose timestamp is unparsable. *)
Theorem X21_latest_row_per_email (rows sorted : list GeoRow) :
  Permutation rows sorted -> Sorted ts_rel sorted ->
  NoDup (map gr_email (groupby_tail1 sorted)) /\
  forall r, In r rows -> exists r', In r' (groupby_tail1 sorted) /\ In r' rows /\
    gr_email r' = gr_email r /\ ts_le (gr_ts r) (gr_ts r') = true /\
    (gr_ts r = None -> gr_ts r' = None).
Proof.
  intros Hp Hs.
  assert (Hss : StronglySorted ts_rel sorted).
  { apply Sorted_StronglySorted; [|exact Hs].
    intros a b c; unfold ts_rel; apply ts_le_trans. }
  split; [apply groupby_tail1_nodup|].
  intros r Hr.
  destruct (groupby_tail1_latest sorted Hss r (Permutation_in _ Hp Hr))
    as [r' [Hin [He Hle]]].
  exists r'; split; [exact Hin|].
  split; [apply (Permutation_in _ (Permutation_sym Hp)), groupby_tail1_incl; exact Hin|].
  split; [exact He | split; [exact Hle|]].
  intros Hn; rewrite Hn in Hle; destruct (gr_ts r'); [discriminate | reflexivity].
Qed.

Lemma X21_witness :
  (Permutation [mkGeoRow "a" (Some 1%Z) 0 0; mkGeoRow "a" None 1 1]
               [mkGeoRow "a" (Some 1%Z) 0 0; mkGeoRow "a" None 1 1] /\
   Sorted ts_rel [mkGeoRow "a" (Some 1%Z) 0 0; mkGeoRow "a" None 1 1]) /\
  (NoDup (map gr_email (groupby_tail1 [mkGeoRow "a" (Some 1%Z) 0 0; mkGeoRow "a" None 1 1])) /\
   forall r, In r [mkGeoRow "a" (Some 1%Z) 0 0; mkGeoRow "a" None 1 1] ->
     exists r', In r' (groupby_tail1 [mkGeoRow "a" (Some 1%Z) 0 0; mkGeoRow "a" None 1 1]) /\
       In r' [mkGeoRow "a" (Some 1%Z) 0 0; mkGeoRow "a" None 1 1] /\
       gr_email r' = gr_email r /\ ts_le (gr_ts r) (gr_ts r') = true /\
       (gr_ts r = None -> gr_ts r' = None)).
Proof.
  assert (H1 : Permutation [mkGeoRow "a" (Some 1%Z) 0 0; mkGeoRow "a" None 1 1]
                           [mkGeoRow "a" (Some 1%Z) 0 0; mkGeoRow "a" None 1 1])
    by apply Permutation_refl.
  assert (H2 : Sorted ts_rel [mkGeoRow "a" (Some 1%Z) 0 0; mkGeoRow "a" None 1 1]).
  { repeat constructor. }
  split; [split; assumption | exact (X21_latest_row_per_email _ _ H1 H2)].
Defined.

(** * The destination helper in double arithmetic *)

(** X22: [rotate_bearing] is not total on valid inputs in double
    arithmetic.  From [(-88, 0)], bearing 0 (due north), over
    19792.696942731207 km (less than half the circumference), the [asin]
    argument rounds to [1.0000000000000002] and [math.asin] raises
    ValueError. *)
Theorem X22_destination_asin_domain_error (lm : Libm) :
  c_library_values lm ->
  rotate_bearing_f lm (-88) 0 0 0x1.3542c9ab5af6ep+14%float = Err ValueError.
Proof.
  intros H; libm_eval H; reflexivity.
Qed.

Lemma X22_witness :
  c_library_values tabulated_libm /\
  rotate_bearing_f tabulated_libm (-88) 0 0 0x1.3542c9ab5af6ep+14%float = Err ValueError.
Proof.
  split; [exact tabulated_libm_values|].
  exact (X22_destination_asin_domain_error tabulated_libm tabulated_libm_values).
Defined.

(** * Out-of-range coordinates *)


